(** * Coding-Guru: storage facade, route layer and AI facade

    A shallow embedding of
    - [server/storage.ts]  (class [DatabaseStorage]),
    - [server/routes.ts]   (function [registerRoutes]),
    - [server/gemini.ts]   (the generative-content facade),
    followed by the properties the specification states about them.

    JavaScript objects are finite maps from property names to values
    (stdpp's [gmap string _]); a database table is the list of its rows and a
    row is the object drizzle returns for it, keyed by the column's property
    name ([id], [userId], [updatedAt], ...).  Effects are written in a small
    environment/state/exception monad: the environment holds what the code
    reads from outside (the clock, the values the database generates, which
    statements fail, what the hosted model answers), the state holds the
    datastore and the logs of the calls made. *)

From Stdlib Require Import ZArith Floats Uint63 Ascii.
From stdpp Require Import gmap strings list fin_maps sorting pretty.

Set Default Proof Using "Type".
Unset Elimination Schemes.

(* ===================================================================== *)
(** * JavaScript values *)
(* ===================================================================== *)

(** The values that travel through the server: what [JSON.parse] and the
    body parser produce, plus [Date] (timestamp columns, milliseconds since
    the epoch).  [undefined] is the absence of a value: a property that is
    not there is [None]. *)
#[warnings="-register-all"]
Inductive JsValue : Type :=
  | JNull
  | JBool (b : bool)
  | JNum (x : float)
  | JString (s : string)
  | JDate (t : Z)
  | JArray (l : list JsValue)
  | JObject (o : gmap string JsValue).

Set Elimination Schemes.

Abbreviation JsObject := (gmap string JsValue) (only parsing).

(** [!!v]: [0], [-0], [NaN], the empty string, [null] and [false] are falsy. *)
Definition truthy (v : JsValue) : bool :=
  match v with
  | JNull => false
  | JBool b => b
  | JNum x => negb (PrimFloat.eqb x 0%float || PrimFloat.is_nan x)
  | JString s => negb (String.eqb s "")
  | JDate _ | JArray _ | JObject _ => true
  end.

(** [a || d] where [a] may be [undefined]. *)
Definition orElse (a : option JsValue) (d : JsValue) : JsValue :=
  match a with
  | Some v => if truthy v then v else d
  | None => d
  end.

(** [text || d] for [text : string | undefined]. *)
Definition textOr (text : option string) (d : string) : string :=
  match text with
  | Some s => if String.eqb s "" then d else s
  | None => d
  end.

(** [a === s] and [a !== s] for a string [s]: no coercion, so only the very
    string compares equal. *)
Definition strictEqString (a : option JsValue) (s : string) : bool :=
  match a with
  | Some (JString x) => String.eqb x s
  | _ => false
  end.

Definition strictNeString (a : option JsValue) (s : string) : bool :=
  negb (strictEqString a s).

(** Own enumerable properties of the elements of an array, keyed by index. *)
Fixpoint indexed (i : nat) (l : list JsValue) : JsObject :=
  match l with
  | [] => ∅
  | v :: rest => <[pretty i := v]> (indexed (S i) rest)
  end.

Fixpoint indexedChars (i : nat) (s : string) : JsObject :=
  match s with
  | EmptyString => ∅
  | String c rest => <[pretty i := JString (String c EmptyString)]> (indexedChars (S i) rest)
  end.

(** The properties copied by object spread [{...v}]: the own enumerable
    properties of [v]; [null], booleans, numbers and dates have none. *)
Definition spread (v : JsValue) : JsObject :=
  match v with
  | JObject o => o
  | JArray l => indexed 0 l
  | JString s => indexedChars 0 s
  | JNull | JBool _ | JNum _ | JDate _ => ∅
  end.

(* ===================================================================== *)
(** * Zod object schemas *)
(* ===================================================================== *)

(** The schemas [insertProjectSchema] and [insertApiEndpointSchema] are
    declared in [shared/schema.ts], which is not among the sources: they are
    parameters below.  What the routes use of zod is [parse] on an object
    schema and [partial()]; an object schema is its shape, one entry per
    declared key, in declaration order. *)
Record ZodType := {
  accepts : JsValue → bool;   (* the field's own check *)
  optional : bool;            (* may the key be missing? *)
}.

Abbreviation ZodObject := (list (string * ZodType)) (only parsing).

Inductive ZodIssue :=
  | IssueNotObject                  (* the input is not an object *)
  | IssueRequired (key : string)    (* a required key is missing *)
  | IssueInvalid (key : string).    (* the field's check rejects the value *)

(** Field by field: a declared key that is present is checked and kept, a
    missing one is an issue unless optional; keys that are not declared are
    stripped from the output. *)
Fixpoint parseShape (shape : ZodObject) (o : JsObject) : list ZodIssue * JsObject :=
  match shape with
  | [] => ([], ∅)
  | (k, t) :: rest =>
      let '(issues, out) := parseShape rest o in
      match o !! k with
      | None => if optional t then (issues, out) else (IssueRequired k :: issues, out)
      | Some v => if accepts t v then (issues, <[k := v]> out) else (IssueInvalid k :: issues, out)
      end
  end.

(** [schema.parse(input)]: the parsed object, or the issues of the
    [ZodError] it throws. *)
Definition parse (schema : ZodObject) (input : JsValue) : list ZodIssue + JsObject :=
  match input with
  | JObject o =>
      match parseShape schema o with
      | ([], out) => inr out
      | (issues, _) => inl issues
      end
  | _ => inl [IssueNotObject]
  end.

(** [schema.partial()]: every key becomes optional. *)
Definition partial (schema : ZodObject) : ZodObject :=
  map (λ kt, (kt.1, {| accepts := accepts kt.2; optional := true |})) schema.

Record Schemas := {
  insertProjectSchema : ZodObject;
  insertApiEndpointSchema : ZodObject;
}.

(* ===================================================================== *)
(** * The datastore and the storage facade ([server/storage.ts]) *)
(* ===================================================================== *)

Abbreviation Row := (gmap string JsValue) (only parsing).

(** Modelled from the spec: the declarations of the tables [users],
    [projects] and [apiEndpoints] ([shared/schema.ts]) are not among the
    sources.  The storage code reads and writes them as collections of row
    objects, so a table is the list of its rows, oldest first, and a row may
    have any columns.  What is taken from the spec is that the tables carry
    no logic of their own: persistence is "a direct object-relational mapping
    [...] with no [...] consistency logic beyond basic upsert-on-conflict",
    so no constraint, trigger or foreign-key action runs when a statement
    does. *)
Record Db := {
  users : list Row;
  projects : list Row;
  apiEndpoints : list Row;
}.

Inductive Table := Users | Projects | ApiEndpoints.

Definition table (t : Table) (d : Db) : list Row :=
  match t with
  | Users => users d
  | Projects => projects d
  | ApiEndpoints => apiEndpoints d
  end.

Definition setTable (t : Table) (rows : list Row) (d : Db) : Db :=
  match t with
  | Users => {| users := rows; projects := projects d; apiEndpoints := apiEndpoints d |}
  | Projects => {| users := users d; projects := rows; apiEndpoints := apiEndpoints d |}
  | ApiEndpoints => {| users := users d; projects := projects d; apiEndpoints := rows |}
  end.

(** [eq(column, s)]: the row's column holds the string [s]. *)
Definition colEq (col s : string) (r : Row) : bool := strictEqString (r !! col) s.

(** The key of [orderBy(desc(column))] on a timestamp column.  [None] is SQL
    NULL, which PostgreSQL puts first in descending order. *)
Definition sortKey (col : string) (r : Row) : option Z :=
  match r !! col with
  | Some (JDate t) => Some t
  | _ => None
  end.

Definition keyLe (a b : option Z) : Prop :=
  match a, b with
  | _, None => True
  | None, Some _ => False
  | Some x, Some y => (x ≤ y)%Z
  end.

(** [descBy col r1 r2]: [r1] may come before [r2] in descending order. *)
Definition descBy (col : string) (r1 r2 : Row) : Prop :=
  keyLe (sortKey col r2) (sortKey col r1).

#[global] Instance keyLe_dec a b : Decision (keyLe a b).
Proof. destruct a, b; simpl; apply _. Defined.

#[global] Instance descBy_dec col r1 r2 : Decision (descBy col r1 r2).
Proof. unfold descBy. apply _. Defined.

(** [select().from(t).where(eq(t.col, s))] *)
Definition selectWhere (col s : string) (rows : list Row) : list Row :=
  filter (λ r, colEq col s r = true) rows.

(** [update(t).set(values).where(eq(t.col, s)).returning()]: the new table
    and the updated rows.  The columns named in [values] are overwritten, the
    others kept. *)
Definition updateWhere (col s : string) (values : Row) (rows : list Row) : list Row :=
  map (λ r, if colEq col s r then values ∪ r else r) rows.

Definition updated (col s : string) (values : Row) (rows : list Row) : list Row :=
  map (λ r, values ∪ r) (selectWhere col s rows).

(** [delete(t).where(eq(t.col, s))] *)
Definition deleteWhere (col s : string) (rows : list Row) : list Row :=
  filter (λ r, colEq col s r = false) rows.

(** [insert(t).values(v).returning()]: the columns [v] does not give take
    the value the database generates for them ([generated]: the fresh id,
    the [defaultNow()] timestamps and the declared defaults). *)
Definition inserted (generated values : Row) : Row := values ∪ generated.

Module Storage.

Definition getUser (id : string) (d : Db) : option Row :=
  head (selectWhere "id" id (users d)).

(** [insert ... onConflictDoUpdate({target: users.id, set: {...userData,
    updatedAt: new Date()}})]: when a user with the id of the new row is
    stored it is updated, otherwise the row is inserted. *)
Definition upsertUser (now : Z) (generated userData : Row) (d : Db) : option Row * Db :=
  let row := inserted generated userData in
  match row !! "id" with
  | Some (JString id) =>
      match selectWhere "id" id (users d) with
      | [] => (Some row, setTable Users (users d ++ [row]) d)
      | _ :: _ =>
          let values := <["updatedAt" := JDate now]> userData in
          (head (updated "id" id values (users d)),
           setTable Users (updateWhere "id" id values (users d)) d)
      end
  | _ => (Some row, setTable Users (users d ++ [row]) d)
  end.

Definition getUserProjects (userId : string) (d : Db) : list Row :=
  merge_sort (descBy "updatedAt") (selectWhere "userId" userId (projects d)).

Definition getProject (id : string) (d : Db) : option Row :=
  head (selectWhere "id" id (projects d)).

Definition createProject (generated project : Row) (d : Db) : option Row * Db :=
  let row := inserted generated project in
  (Some row, setTable Projects (projects d ++ [row]) d).

Definition updateProject (now : Z) (id : string) (updates : Row) (d : Db) : option Row * Db :=
  let values := <["updatedAt" := JDate now]> updates in
  (head (updated "id" id values (projects d)),
   setTable Projects (updateWhere "id" id values (projects d)) d).

Definition deleteProject (id : string) (d : Db) : Db :=
  setTable Projects (deleteWhere "id" id (projects d)) d.

Definition getProjectEndpoints (projectId : string) (d : Db) : list Row :=
  merge_sort (descBy "createdAt") (selectWhere "projectId" projectId (apiEndpoints d)).

Definition createApiEndpoint (generated endpoint : Row) (d : Db) : option Row * Db :=
  let row := inserted generated endpoint in
  (Some row, setTable ApiEndpoints (apiEndpoints d ++ [row]) d).

Definition updateApiEndpoint (now : Z) (id : string) (updates : Row) (d : Db) : option Row * Db :=
  let values := <["updatedAt" := JDate now]> updates in
  (head (updated "id" id values (apiEndpoints d)),
   setTable ApiEndpoints (updateWhere "id" id values (apiEndpoints d)) d).

Definition deleteApiEndpoint (id : string) (d : Db) : Db :=
  setTable ApiEndpoints (deleteWhere "id" id (apiEndpoints d)) d.

End Storage.

(** The storage interface [IStorage] as data: one constructor per method,
    with the arguments of the call. *)
Inductive Call :=
  | CGetUser (id : string)
  | CUpsertUser (userData : Row)
  | CGetUserProjects (userId : string)
  | CGetProject (id : string)
  | CCreateProject (project : Row)
  | CUpdateProject (id : string) (updates : Row)
  | CDeleteProject (id : string)
  | CGetProjectEndpoints (projectId : string)
  | CCreateApiEndpoint (endpoint : Row)
  | CUpdateApiEndpoint (id : string) (updates : Row)
  | CDeleteApiEndpoint (id : string).

(** What a storage method resolves to. *)
Inductive Answer :=
  | ARow (r : option Row)     (* a row or [undefined] *)
  | ARows (l : list Row)
  | AVoid.

(** The table a storage method names in its query. *)
Definition tableOf (c : Call) : Table :=
  match c with
  | CGetUser _ | CUpsertUser _ => Users
  | CGetUserProjects _ | CGetProject _ | CCreateProject _
  | CUpdateProject _ _ | CDeleteProject _ => Projects
  | CGetProjectEndpoints _ | CCreateApiEndpoint _
  | CUpdateApiEndpoint _ _ | CDeleteApiEndpoint _ => ApiEndpoints
  end.

(** One call of the storage object at clock reading [now], the database
    generating [generated] for an insert. *)
Definition perform (now : Z) (generated : Row) (c : Call) (d : Db) : Answer * Db :=
  match c with
  | CGetUser id => (ARow (Storage.getUser id d), d)
  | CUpsertUser u => let '(r, d') := Storage.upsertUser now generated u d in (ARow r, d')
  | CGetUserProjects u => (ARows (Storage.getUserProjects u d), d)
  | CGetProject id => (ARow (Storage.getProject id d), d)
  | CCreateProject p => let '(r, d') := Storage.createProject generated p d in (ARow r, d')
  | CUpdateProject id u => let '(r, d') := Storage.updateProject now id u d in (ARow r, d')
  | CDeleteProject id => (AVoid, Storage.deleteProject id d)
  | CGetProjectEndpoints p => (ARows (Storage.getProjectEndpoints p d), d)
  | CCreateApiEndpoint e => let '(r, d') := Storage.createApiEndpoint generated e d in (ARow r, d')
  | CUpdateApiEndpoint id u => let '(r, d') := Storage.updateApiEndpoint now id u d in (ARow r, d')
  | CDeleteApiEndpoint id => (AVoid, Storage.deleteApiEndpoint id d)
  end.

(* ===================================================================== *)
(** * Effects *)
(* ===================================================================== *)

Inductive Exn :=
  | ZodError (issues : list ZodIssue)
  | DbError                      (* a statement the database did not run *)
  | ModelError                   (* the rejection of a model request *)
  | SyntaxError                  (* [JSON.parse] on text that is not JSON *)
  | TypeError                    (* a property read on [null] *)
  | Error (message : string).    (* [new Error(message)] *)

Inductive Result (A : Type) :=
  | Return (a : A)
  | Throw (e : Exn).
Arguments Return {A} a.
Arguments Throw {A} e.

(** A computation reads an environment [E], updates a state [S] and returns
    or throws; the state reached when it throws is kept (what was done before
    the exception stays done). *)
Definition M (E S A : Type) : Type := E → S → Result A * S.

Definition ret {E S A} (a : A) : M E S A := λ _ s, (Return a, s).

Definition throw {E S A} (e : Exn) : M E S A := λ _ s, (Throw e, s).

Definition bind {E S A B} (m : M E S A) (k : A → M E S B) : M E S B :=
  λ env s,
    match m env s with
    | (Return a, s') => k a env s'
    | (Throw e, s') => (Throw e, s')
    end.

(** [try { body } catch (error) { handler }] *)
Definition tryCatch {E S A} (body : M E S A) (handler : Exn → M E S A) : M E S A :=
  λ env s,
    match body env s with
    | (Return a, s') => (Return a, s')
    | (Throw e, s') => handler e env s'
    end.

Notation "'let*' x := m 'in' k" := (bind m (λ x, k))
  (at level 10, x name, m at level 100, k at level 200).

(* ===================================================================== *)
(** * The route layer ([server/routes.ts]) *)
(* ===================================================================== *)

(** What a request handler reads from outside the process. *)
Record ServerEnv := {
  now : Z;                  (* [new Date()] *)
  generated : Row;          (* what the database generates for an insert *)
  dbFails : nat → bool;     (* does the n-th statement of the request fail? *)
}.

Record ServerState := {
  db : Db;
  calls : list Call;        (* the storage calls made so far, oldest first *)
}.

Abbreviation ServerM := (M ServerEnv ServerState) (only parsing).

(** [await storage.method(args)]: the call is logged; the statement runs, or
    fails as a whole and leaves the datastore as it was. *)
Definition storage (c : Call) : ServerM Answer :=
  λ env s,
    let log := calls s ++ [c] in
    if dbFails env (length (calls s)) then (Throw DbError, {| db := db s; calls := log |})
    else
      let '(a, d) := perform (now env) (generated env) c (db s) in
      (Return a, {| db := d; calls := log |}).

(** The typed view of an answer ([Promise<Project | undefined>],
    [Promise<Project[]>]). *)
Definition asRow (a : Answer) : option Row :=
  match a with ARow r => r | _ => None end.

Definition asRows (a : Answer) : list Row :=
  match a with ARows l => l | _ => [] end.

(** [insertSchema.parse(input)] inside a [try]. *)
Definition zodParse {E S} (schema : ZodObject) (input : JsValue) : M E S JsObject :=
  match parse schema input with
  | inr out => ret out
  | inl issues => throw (ZodError issues)
  end.

(** An authenticated request ([isAuthenticated] has run): the session user
    [req.user.claims.sub], the path parameter ([req.params.id] or
    [req.params.projectId]) and the parsed body. *)
Record Request := {
  sub : string;
  param : string;
  body : JsValue;
}.

Inductive Payload :=
  | Message (message : string)                             (* [{ message }] *)
  | Invalid (message : string) (errors : list ZodIssue)    (* [{ message, errors }] *)
  | Json (v : option Row)                                  (* [res.json(row)] *)
  | JsonList (l : list Row)
  | NoContent.                                             (* [res.send()] *)

Record Response := {
  status : nat;
  payload : Payload;
}.

Definition respond {E S} (code : nat) (p : Payload) : M E S Response :=
  ret {| status := code; payload := p |}.

(** The methods of the [storage] object as the handlers await them. *)
Definition getUser (id : string) : ServerM (option Row) :=
  let* a := storage (CGetUser id) in ret (asRow a).

Definition getUserProjects (userId : string) : ServerM (list Row) :=
  let* a := storage (CGetUserProjects userId) in ret (asRows a).

Definition getProject (id : string) : ServerM (option Row) :=
  let* a := storage (CGetProject id) in ret (asRow a).

Definition createProject (project : Row) : ServerM (option Row) :=
  let* a := storage (CCreateProject project) in ret (asRow a).

Definition updateProject (id : string) (updates : Row) : ServerM (option Row) :=
  let* a := storage (CUpdateProject id updates) in ret (asRow a).

Definition deleteProject (id : string) : ServerM unit :=
  let* _ := storage (CDeleteProject id) in ret tt.

Definition getProjectEndpoints (projectId : string) : ServerM (list Row) :=
  let* a := storage (CGetProjectEndpoints projectId) in ret (asRows a).

Definition createApiEndpoint (endpoint : Row) : ServerM (option Row) :=
  let* a := storage (CCreateApiEndpoint endpoint) in ret (asRow a).

(** The guard the project-scoped handlers start with: look the project up,
    answer 404 when there is none and 403 when [project.userId !== userId];
    only then run [continue]. *)
Definition withOwnedProject (req : Request) (continue : Row → ServerM Response)
  : ServerM Response :=
  let* project := getProject (param req) in
  match project with
  | None => respond 404 (Message "Project not found")
  | Some project =>
      if strictNeString (project !! "userId") (sub req)
      then respond 403 (Message "Access denied")
      else continue project
  end.

Module Routes.

(** GET /api/auth/user *)
Definition authUser (req : Request) : ServerM Response :=
  tryCatch
    (let* user := getUser (sub req) in
     respond 200 (Json user))
    (λ _, respond 500 (Message "Failed to fetch user")).

(** GET /api/projects *)
Definition listProjects (req : Request) : ServerM Response :=
  tryCatch
    (let* projects := getUserProjects (sub req) in
     respond 200 (JsonList projects))
    (λ _, respond 500 (Message "Failed to fetch projects")).

(** GET /api/projects/:id *)
Definition readProject (req : Request) : ServerM Response :=
  tryCatch
    (withOwnedProject req (λ project, respond 200 (Json (Some project))))
    (λ _, respond 500 (Message "Failed to fetch project")).

(** POST /api/projects *)
Definition postProject (sch : Schemas) (req : Request) : ServerM Response :=
  tryCatch
    (let* projectData :=
       zodParse (insertProjectSchema sch)
         (JObject (<["userId" := JString (sub req)]> (spread (body req)))) in
     let* project := createProject projectData in
     respond 201 (Json project))
    (λ error,
       match error with
       | ZodError issues => respond 400 (Invalid "Invalid project data" issues)
       | _ => respond 500 (Message "Failed to create project")
       end).

(** PUT /api/projects/:id *)
Definition putProject (sch : Schemas) (req : Request) : ServerM Response :=
  tryCatch
    (withOwnedProject req (λ _,
       let* updates := zodParse (partial (insertProjectSchema sch)) (body req) in
       let* updatedProject := updateProject (param req) updates in
       respond 200 (Json updatedProject)))
    (λ error,
       match error with
       | ZodError issues => respond 400 (Invalid "Invalid project data" issues)
       | _ => respond 500 (Message "Failed to update project")
       end).

(** DELETE /api/projects/:id *)
Definition removeProject (req : Request) : ServerM Response :=
  tryCatch
    (withOwnedProject req (λ _,
       let* _ := deleteProject (param req) in
       respond 204 NoContent))
    (λ _, respond 500 (Message "Failed to delete project")).

(** GET /api/projects/:projectId/endpoints *)
Definition listEndpoints (req : Request) : ServerM Response :=
  tryCatch
    (withOwnedProject req (λ _,
       let* endpoints := getProjectEndpoints (param req) in
       respond 200 (JsonList endpoints)))
    (λ _, respond 500 (Message "Failed to fetch endpoints")).

(** POST /api/projects/:projectId/endpoints *)
Definition postEndpoint (sch : Schemas) (req : Request) : ServerM Response :=
  tryCatch
    (withOwnedProject req (λ _,
       let* endpointData :=
         zodParse (insertApiEndpointSchema sch)
           (JObject (<["projectId" := JString (param req)]> (spread (body req)))) in
       let* endpoint := createApiEndpoint endpointData in
       respond 201 (Json endpoint)))
    (λ error,
       match error with
       | ZodError issues => respond 400 (Invalid "Invalid endpoint data" issues)
       | _ => respond 500 (Message "Failed to create endpoint")
       end).

End Routes.

Inductive Method := GET | POST | PUT | DELETE.

(** The headings under which [registerRoutes] groups its routes. *)
Inductive RouteGroup := AuthRoutes | ProjectRoutes | ApiEndpointRoutes | AiRoutes.

Record Route := {
  method : Method;
  path : string;
  group : RouteGroup;
}.

(** The routes [registerRoutes] installs, in order. *)
Definition registerRoutes : list Route :=
  [ {| method := GET;    path := "/api/auth/user";                      group := AuthRoutes |};
    {| method := GET;    path := "/api/projects";                       group := ProjectRoutes |};
    {| method := GET;    path := "/api/projects/:id";                   group := ProjectRoutes |};
    {| method := POST;   path := "/api/projects";                       group := ProjectRoutes |};
    {| method := PUT;    path := "/api/projects/:id";                   group := ProjectRoutes |};
    {| method := DELETE; path := "/api/projects/:id";                   group := ProjectRoutes |};
    {| method := GET;    path := "/api/projects/:projectId/endpoints";  group := ApiEndpointRoutes |};
    {| method := POST;   path := "/api/projects/:projectId/endpoints";  group := ApiEndpointRoutes |};
    {| method := POST;   path := "/api/ai/generate-component";          group := AiRoutes |};
    {| method := POST;   path := "/api/ai/generate-backend";            group := AiRoutes |} ].

(** The handler installed for a method and path, for the routes that go to
    storage (the two AI routes go to the facade below). *)
Definition handlerOf (sch : Schemas) (m : Method) (p : string)
  : option (Request → ServerM Response) :=
  match m with
  | GET =>
      if String.eqb p "/api/auth/user" then Some Routes.authUser
      else if String.eqb p "/api/projects" then Some Routes.listProjects
      else if String.eqb p "/api/projects/:id" then Some Routes.readProject
      else if String.eqb p "/api/projects/:projectId/endpoints" then Some Routes.listEndpoints
      else None
  | POST =>
      if String.eqb p "/api/projects" then Some (Routes.postProject sch)
      else if String.eqb p "/api/projects/:projectId/endpoints" then Some (Routes.postEndpoint sch)
      else None
  | PUT =>
      if String.eqb p "/api/projects/:id" then Some (Routes.putProject sch) else None
  | DELETE =>
      if String.eqb p "/api/projects/:id" then Some Routes.removeProject else None
  end.

(* ===================================================================== *)
(** * The AI facade ([server/gemini.ts]) *)
(* ===================================================================== *)

(** The argument of [ai.models.generateContent]. *)
Record GenRequest := {
  model : string;
  responseMimeType : option string;    (* [config.responseMimeType] *)
  contents : string;
}.

(** How the promise of a model request settles; [text] is [response.text],
    a string or [undefined]. *)
Inductive Settled :=
  | Rejected
  | Fulfilled (text : option string).

(** The hosted model: how the n-th request of an invocation settles. *)
Abbreviation Model := (nat → GenRequest → Settled) (only parsing).

(** The state is the list of the requests issued so far, oldest first. *)
Abbreviation AiM := (M (nat → GenRequest → Settled) (list GenRequest)) (only parsing).

(** [ai.models.generateContent(r)]: issues the request and returns its
    promise. *)
Definition generateContent (r : GenRequest) : AiM Settled :=
  λ ai issued, (Return (ai (length issued) r), issued ++ [r]).

(** [await promise] *)
Definition await (p : Settled) : AiM (option string) :=
  match p with
  | Fulfilled text => ret text
  | Rejected => throw ModelError
  end.

(** [await Promise.all([p1, p2, p3])]: the three responses, or the
    rejection when one of the promises is rejected. *)
Definition awaitAll (p1 p2 p3 : Settled)
  : AiM (option string * option string * option string) :=
  match p1, p2, p3 with
  | Fulfilled text1, Fulfilled text2, Fulfilled text3 => ret (text1, text2, text3)
  | _, _, _ => throw ModelError
  end.

(** The double quote character. *)
Definition dq : string := String "034"%char EmptyString.

Definition componentPrompt (componentType framework stylePreferences : string) : string :=
  "Generate a modern " +:+ componentType +:+ " component using " +:+ framework +:+ ". 

Style preferences: " +:+ stylePreferences +:+ "

Requirements:
- Use TypeScript
- Include proper TypeScript types
- Use Tailwind CSS for styling
- Make it responsive and accessible
- Include proper JSX structure
- Add data-testid attributes for interactive elements
- Follow modern React best practices

Return only the component code, no explanations.".

Definition generateReactComponent (componentType framework stylePreferences : string)
  : AiM string :=
  let prompt := componentPrompt componentType framework stylePreferences in
  tryCatch
    (let* promise := generateContent
       {| model := "gemini-2.5-flash"; responseMimeType := None; contents := prompt |} in
     let* text := await promise in
     ret (textOr text "// Error generating component"))
    (λ _, throw (Error "Failed to generate component with AI")).

(** [Object.entries(features).filter(([_, enabled]) => enabled)
      .map(([feature]) => feature).join(", ")], [features] given by its
    entries. *)
Definition featuresText (features : list (string * bool)) : string :=
  String.concat ", " (map fst (filter (λ entry, snd entry = true) features)).

Definition routesPrompt (database framework : string) (features : list (string * bool)) : string :=
  "Generate " +:+ framework +:+ " API routes for a web application with " +:+ database +:+ " database.

Features to include: " +:+ featuresText features +:+ "

Requirements:
- Use TypeScript
- Include proper error handling
- Add input validation
- Use modern async/await patterns
- Include proper HTTP status codes
- Add middleware for authentication where needed

Generate the routes file with all necessary endpoints.".

Definition modelsPrompt (database : string) (features : list (string * bool)) : string :=
  "Generate " +:+ database +:+ " database models/schemas for a web application.

Features: " +:+ featuresText features +:+ "

Requirements:
- Use TypeScript
- Include proper field types
- Add relationships between models
- Include timestamps
- Add validation rules where appropriate

Generate the models/schema file.".

Definition middlewarePrompt (framework : string) (features : list (string * bool)) : string :=
  "Generate middleware functions for a " +:+ framework +:+ " application.

Features: " +:+ featuresText features +:+ "

Requirements:
- Use TypeScript
- Include authentication middleware
- Add error handling middleware
- Include request logging
- Add CORS configuration if needed

Generate the middleware file.".

Record BackendCode := {
  routes : string;
  models : string;
  middleware : string;
}.

Definition flash (prompt : string) : GenRequest :=
  {| model := "gemini-2.5-flash"; responseMimeType := None; contents := prompt |}.

(** The three requests are issued while the array given to [Promise.all] is
    built, before anything is awaited. *)
Definition generateBackendCode (database framework : string) (features : list (string * bool))
  : AiM BackendCode :=
  tryCatch
    (let* routesPromise := generateContent (flash (routesPrompt database framework features)) in
     let* modelsPromise := generateContent (flash (modelsPrompt database features)) in
     let* middlewarePromise := generateContent (flash (middlewarePrompt framework features)) in
     let* responses := awaitAll routesPromise modelsPromise middlewarePromise in
     let '(routesText, modelsText, middlewareText) := responses in
     ret {| routes := textOr routesText "// Error generating routes";
            models := textOr modelsText "// Error generating models";
            middleware := textOr middlewareText "// Error generating middleware" |})
    (λ _, throw (Error "Failed to generate backend code with AI")).

Definition sitePrompt (userPrompt : string) : string :=
  "You are an expert web developer. Based on this user request, generate a complete website structure:

" +:+ dq +:+ userPrompt +:+ dq +:+ "

Please provide a JSON response with:
1. A suitable title for the website
2. A brief description
3. An array of components that should be included (with their types and content)
4. Complete HTML code for the website
5. Complete CSS code (using Tailwind classes where possible)
6. Any necessary JavaScript code

Make the design modern, responsive, and professional. Include proper structure with header, main content, and footer where appropriate.

Return ONLY valid JSON in this exact format:
{
  " +:+ dq +:+ "title" +:+ dq +:+ ": " +:+ dq +:+ "Website Title" +:+ dq +:+ ",
  " +:+ dq +:+ "description" +:+ dq +:+ ": " +:+ dq +:+ "Brief description" +:+ dq +:+ ",
  " +:+ dq +:+ "components" +:+ dq +:+ ": [{" +:+ dq +:+ "type" +:+ dq +:+ ": " +:+ dq +:+ "header" +:+ dq +:+ ", " +:+ dq +:+ "content" +:+ dq +:+ ": " +:+ dq +:+ "..." +:+ dq +:+ "}, {" +:+ dq +:+ "type" +:+ dq +:+ ": " +:+ dq +:+ "hero" +:+ dq +:+ ", " +:+ dq +:+ "content" +:+ dq +:+ ": " +:+ dq +:+ "..." +:+ dq +:+ "}, ...],
  " +:+ dq +:+ "htmlCode" +:+ dq +:+ ": " +:+ dq +:+ "<!DOCTYPE html>..." +:+ dq +:+ ",
  " +:+ dq +:+ "cssCode" +:+ dq +:+ ": " +:+ dq +:+ "/* CSS styles */" +:+ dq +:+ ",
  " +:+ dq +:+ "jsCode" +:+ dq +:+ ": " +:+ dq +:+ "// JavaScript code" +:+ dq +:+ "
}".

Record Site := {
  title : JsValue;
  description : JsValue;
  components : JsValue;
  htmlCode : JsValue;
  cssCode : JsValue;
  jsCode : JsValue;
}.

(** [result.name] for the six names read off the parsed response.  None of
    them is a property of a boolean, number, string or array, so only an
    object can have it; reading a property of [null] throws. *)
Definition field {E S} (result : JsValue) (name : string) : M E S (option JsValue) :=
  match result with
  | JNull => throw TypeError
  | JObject o => ret (o !! name)
  | JBool _ | JNum _ | JString _ | JDate _ | JArray _ => ret None
  end.

Section BuildFromPrompt.

(** [JSON.parse]: the value of a JSON text, [None] where it throws a
    [SyntaxError]. *)
Variable JSON_parse : string → option JsValue.

Definition jsonParse {E S} (text : string) : M E S JsValue :=
  match JSON_parse text with
  | Some v => ret v
  | None => throw SyntaxError
  end.

Definition buildFromPrompt (userPrompt : string) : AiM Site :=
  let prompt := sitePrompt userPrompt in
  tryCatch
    (let* promise := generateContent
       {| model := "gemini-2.5-pro";
          responseMimeType := Some "application/json";
          contents := prompt |} in
     let* text := await promise in
     let* result := jsonParse (textOr text "{}") in
     let* title := field result "title" in
     let* description := field result "description" in
     let* components := field result "components" in
     let* htmlCode := field result "htmlCode" in
     let* cssCode := field result "cssCode" in
     let* jsCode := field result "jsCode" in
     ret {| title := orElse title (JString "Generated Website");
            description := orElse description (JString "Generated using AI");
            components := orElse components (JArray []);
            htmlCode := orElse htmlCode (JString "<!DOCTYPE html><html><head><title>Generated Site</title></head><body><h1>Generated Content</h1></body></html>");
            cssCode := orElse cssCode (JString "/* Generated styles */");
            jsCode := orElse jsCode (JString "// Generated JavaScript") |})
    (λ _, throw (Error "Failed to generate website from prompt")).

End BuildFromPrompt.

Definition optimizePrompt (code type : string) : string :=
  "Analyze and optimize the following " +:+ type +:+ " code:

" +:+ code +:+ "

Please provide optimized version with:
- Better performance
- Improved readability
- Modern best practices
- Proper error handling
- Security improvements (if applicable)

Return only the optimized code, no explanations.".

Definition optimizeCode (code type : string) : AiM string :=
  let prompt := optimizePrompt code type in
  tryCatch
    (let* promise := generateContent
       {| model := "gemini-2.5-pro"; responseMimeType := None; contents := prompt |} in
     let* text := await promise in
     ret (textOr text code))
    (λ _, ret code).

(* ===================================================================== *)
(** * The AI routes ([server/routes.ts]) *)
(* ===================================================================== *)

Inductive AiPayload :=
  | AiMessage (message : string)
      (* [{ message }] *)
  | ComponentCode (code : string) (componentType framework : option JsValue)
      (* [{ code, componentType, framework }] *)
  | BackendFiles (code : BackendCode) (database framework : option JsValue).
      (* [{ ...generatedCode, database, framework }] *)

Record AiResponse := {
  aiStatus : nat;
  aiPayload : AiPayload;
}.

Definition aiRespond (code : nat) (p : AiPayload) : AiM AiResponse :=
  ret {| aiStatus := code; aiPayload := p |}.

(** [!!v] for a value that may be [undefined]. *)
Definition present (v : option JsValue) : bool :=
  match v with
  | Some v => truthy v
  | None => false
  end.

(** [await import("./gemini")]: the module throws while it is evaluated
    when [process.env.GEMINI_API_KEY] is not set. *)
Definition importGemini (apiKey : bool) : AiM unit :=
  if apiKey then ret tt
  else throw (Error "GEMINI_API_KEY environment variable is required").

Section AiRoutes.

(** What the runtime adds to a request: the text it gives for a number or a
    date, the order in which it enumerates the own keys of the [features]
    object, and whether [process.env.GEMINI_API_KEY] is set. *)
Variable scalarText : JsValue → string.
Variable keyOrder : list string.
Variable apiKey : bool.

(** The string a template literal makes of a value, [None] where it throws
    a [TypeError].  A string stands for itself; an array is joined with
    commas, [null] elements giving the empty string; an object gives
    [[object Object]] through the [toString] it inherits, and cannot be
    converted when it has a [toString] property of its own, which in a parsed
    body is never a function. *)
Fixpoint toText (v : JsValue) : option string :=
  match v with
  | JNull => Some "null"
  | JBool b => Some (if b then "true" else "false")
  | JNum _ | JDate _ => Some (scalarText v)
  | JString s => Some s
  | JArray l =>
      (fix join (elements : list JsValue) : option string :=
         match elements with
         | [] => Some ""
         | x :: rest =>
             match (match x with JNull => Some "" | _ => toText x end) with
             | Some text =>
                 match rest with
                 | [] => Some text
                 | _ :: _ =>
                     match join rest with
                     | Some more => Some (text +:+ "," +:+ more)
                     | None => None
                     end
                 end
             | None => None
             end
         end) l
  | JObject o =>
      match o !! "toString" with
      | Some _ => None
      | None => Some "[object Object]"
      end
  end.

(** [`${v}`] for a value that may be [undefined]. *)
Definition templateText (v : option JsValue) : AiM string :=
  match v with
  | None => ret "undefined"
  | Some v =>
      match toText v with
      | Some text => ret text
      | None => throw TypeError
      end
  end.

(** The characters of a string as entries, keyed by index. *)
Fixpoint charEntries (i : nat) (s : string) : list (string * JsValue) :=
  match s with
  | EmptyString => []
  | String c rest => (pretty i, JString (String c EmptyString)) :: charEntries (S i) rest
  end.

(** [Object.entries(v)] for a value that is neither [null] nor [undefined]:
    the own enumerable properties, those of an object in the runtime's key
    order. *)
Definition entriesOf (v : JsValue) : list (string * JsValue) :=
  match v with
  | JObject o => omap (λ key, pair key <$> o !! key) keyOrder
  | JArray l => imap (λ i x, (pretty i, x)) l
  | JString s => charEntries 0 s
  | JNull | JBool _ | JNum _ | JDate _ => []
  end.

(** [Object.entries(v)] throws on [null] and [undefined]. *)
Definition objectEntries (v : option JsValue) : AiM (list (string * JsValue)) :=
  match v with
  | None | Some JNull => throw TypeError
  | Some v => ret (entriesOf v)
  end.

(** POST /api/ai/generate-component.  The names destructured from the body
    are, like those of [field], no properties of a primitive or an array.
    [generateReactComponent] builds its prompt, and so converts the three
    values, before its own [try]. *)
Definition generateComponentRoute (body : JsValue) : AiM AiResponse :=
  tryCatch
    (let* componentType := field body "componentType" in
     let* framework := field body "framework" in
     let* stylePreferences := field body "stylePreferences" in
     if negb (present componentType) || negb (present framework)
        || negb (present stylePreferences)
     then aiRespond 400
            (AiMessage "Missing required fields: componentType, framework, stylePreferences")
     else
       let* _ := importGemini apiKey in
       let* componentTypeText := templateText componentType in
       let* frameworkText := templateText framework in
       let* stylePreferencesText := templateText stylePreferences in
       let* generatedCode :=
         generateReactComponent componentTypeText frameworkText stylePreferencesText in
       aiRespond 200 (ComponentCode generatedCode componentType framework))
    (λ _, aiRespond 500
            (AiMessage "Failed to generate component. Please check your API key and try again.")).

(** POST /api/ai/generate-backend.  Before its own [try],
    [generateBackendCode] reads the entries of [features], keeping those
    whose value is truthy, and builds its prompts, converting [framework] and
    [database]. *)
Definition generateBackendRoute (body : JsValue) : AiM AiResponse :=
  tryCatch
    (let* database := field body "database" in
     let* framework := field body "framework" in
     let* features := field body "features" in
     if negb (present database) || negb (present framework) || negb (present features)
     then aiRespond 400 (AiMessage "Missing required fields: database, framework, features")
     else
       let* _ := importGemini apiKey in
       let* featureEntries := objectEntries features in
       let* frameworkText := templateText framework in
       let* databaseText := templateText database in
       let* generatedCode :=
         generateBackendCode databaseText frameworkText
           (map (λ entry, (entry.1, truthy entry.2)) featureEntries) in
       aiRespond 200 (BackendFiles generatedCode database framework))
    (λ _, aiRespond 500
            (AiMessage "Failed to generate backend code. Please check your API key and try again.")).

End AiRoutes.

(* ===================================================================== *)
(** * A reader for plain JSON texts *)
(* ===================================================================== *)

(** [JSON.parse] is the runtime's; the facade is stated over any such
    function.  To run [buildFromPrompt] on concrete responses, here is a
    reader for the JSON texts made of objects, arrays, strings without
    escapes, integers, [true], [false] and [null]; on the other texts it
    answers [None]. *)
Module PlainJson.

Definition isSpace (c : ascii) : bool :=
  Ascii.eqb c " " || Ascii.eqb c "010" || Ascii.eqb c "013" || Ascii.eqb c "009".

Fixpoint skipSpace (s : string) : string :=
  match s with
  | String c rest => if isSpace c then skipSpace rest else s
  | EmptyString => s
  end.

(** The characters up to the closing quote, and what follows it. *)
Fixpoint readString (s : string) : option (string * string) :=
  match s with
  | EmptyString => None
  | String c rest =>
      if Ascii.eqb c "034" then Some (EmptyString, rest)
      else if Ascii.eqb c "\" || (nat_of_ascii c <? 32)%nat then None
      else
        match readString rest with
        | Some (str, rest') => Some (String c str, rest')
        | None => None
        end
  end.

Definition digit (c : ascii) : option Z :=
  let n := nat_of_ascii c in
  if ((48 <=? n) && (n <=? 57))%nat then Some (Z.of_nat n - 48)%Z else None.

Definition isDigit (c : ascii) : bool :=
  match digit c with Some _ => true | None => false end.

Fixpoint readDigits (acc : Z) (s : string) : Z * string :=
  match s with
  | String c rest =>
      match digit c with
      | Some d => readDigits (10 * acc + d)%Z rest
      | None => (acc, s)
      end
  | EmptyString => (acc, s)
  end.

(** An integer literal: no leading zero, no fraction, no exponent. *)
Definition readInteger (s : string) : option (Z * string) :=
  match s with
  | String c rest =>
      match digit c with
      | Some 0%Z =>
          match rest with
          | String c' _ =>
              if isDigit c' || Ascii.eqb c' "." || Ascii.eqb c' "e" || Ascii.eqb c' "E"
              then None else Some (0%Z, rest)
          | EmptyString => Some (0%Z, rest)
          end
      | Some d =>
          let '(n, rest') := readDigits d rest in
          match rest' with
          | String c' _ =>
              if Ascii.eqb c' "." || Ascii.eqb c' "e" || Ascii.eqb c' "E"
              then None else Some (n, rest')
          | EmptyString => Some (n, rest')
          end
      | None => None
      end
  | EmptyString => None
  end.

(** The double nearest to a natural number below 2^63. *)
Definition floatOfZ (n : Z) : option float :=
  if (n <? 2 ^ 63)%Z then Some (PrimFloat.of_uint63 (Uint63.of_Z n)) else None.

Fixpoint stripPrefix (p s : string) : option string :=
  match p, s with
  | EmptyString, _ => Some s
  | String a p', String b s' => if Ascii.eqb a b then stripPrefix p' s' else None
  | String _ _, EmptyString => None
  end.

(** The elements after [[], given the reader of one value. *)
Fixpoint readElements (value : string → option (JsValue * string)) (n : nat)
    (acc : list JsValue) (s : string) : option (JsValue * string) :=
  match n with
  | O => None
  | S n =>
      match value s with
      | Some (v, rest) =>
          match skipSpace rest with
          | String c rest' =>
              if Ascii.eqb c "," then readElements value n (acc ++ [v]) rest'
              else if Ascii.eqb c "]" then Some (JArray (acc ++ [v]), rest')
              else None
          | EmptyString => None
          end
      | None => None
      end
  end.

(** The members after [{]; a key given twice keeps its last value. *)
Fixpoint readMembers (value : string → option (JsValue * string)) (n : nat)
    (acc : JsObject) (s : string) : option (JsValue * string) :=
  match n with
  | O => None
  | S n =>
      match skipSpace s with
      | String q rest =>
          if Ascii.eqb q "034" then
            match readString rest with
            | Some (key, rest1) =>
                match skipSpace rest1 with
                | String colon rest2 =>
                    if Ascii.eqb colon ":" then
                      match value rest2 with
                      | Some (v, rest3) =>
                          match skipSpace rest3 with
                          | String c rest4 =>
                              if Ascii.eqb c "," then readMembers value n (<[key := v]> acc) rest4
                              else if Ascii.eqb c "}" then Some (JObject (<[key := v]> acc), rest4)
                              else None
                          | EmptyString => None
                          end
                      | None => None
                      end
                    else None
                | EmptyString => None
                end
            | None => None
            end
          else None
      | EmptyString => None
      end
  end.

Fixpoint readValue (fuel : nat) (s : string) : option (JsValue * string) :=
  match fuel with
  | O => None
  | S fuel =>
      match skipSpace s with
      | EmptyString => None
      | String c rest as s' =>
          if Ascii.eqb c "{" then
            match skipSpace rest with
            | String c' rest' =>
                if Ascii.eqb c' "}" then Some (JObject ∅, rest')
                else readMembers (readValue fuel) (String.length rest) ∅ rest
            | EmptyString => None
            end
          else if Ascii.eqb c "[" then
            match skipSpace rest with
            | String c' rest' =>
                if Ascii.eqb c' "]" then Some (JArray [], rest')
                else readElements (readValue fuel) (String.length rest) [] rest
            | EmptyString => None
            end
          else if Ascii.eqb c "034" then
            match readString rest with
            | Some (str, rest') => Some (JString str, rest')
            | None => None
            end
          else if Ascii.eqb c "-" then
            match readInteger rest with
            | Some (n, rest') =>
                match floatOfZ n with
                | Some x => Some (JNum (PrimFloat.opp x), rest')
                | None => None
                end
            | None => None
            end
          else
            match stripPrefix "null" s', stripPrefix "true" s', stripPrefix "false" s' with
            | Some rest', _, _ => Some (JNull, rest')
            | _, Some rest', _ => Some (JBool true, rest')
            | _, _, Some rest' => Some (JBool false, rest')
            | None, None, None =>
                match readInteger s' with
                | Some (n, rest') =>
                    match floatOfZ n with
                    | Some x => Some (JNum x, rest')
                    | None => None
                    end
                | None => None
                end
            end
      end
  end.

Definition JSON_parse (text : string) : option JsValue :=
  match readValue (S (String.length text)) text with
  | Some (v, rest) =>
      match skipSpace rest with
      | EmptyString => Some v
      | String _ _ => None
      end
  | None => None
  end.

End PlainJson.

(* ===================================================================== *)
(** * Sample data *)
(* ===================================================================== *)

(** A small installation to run the model on: schemas in the shape the
    dashboard posts to ([title], optional [description]), two users, a
    project of each and one endpoint. *)
Module Sample.

Definition isString (v : JsValue) : bool :=
  match v with JString _ => true | _ => false end.

Definition zString : ZodType := {| accepts := isString; optional := false |}.

Definition zOptionalString : ZodType := {| accepts := isString; optional := true |}.

Definition schemas : Schemas :=
  {| insertProjectSchema :=
       [("userId", zString); ("title", zString); ("description", zOptionalString)];
     insertApiEndpointSchema :=
       [("projectId", zString); ("path", zString); ("method", zString)] |}.

Definition aliceProject : Row :=
  {[ "id" := JString "p1"; "userId" := JString "alice";
     "title" := JString "Shop"; "updatedAt" := JDate 100 ]}.

Definition bobProject : Row :=
  {[ "id" := JString "p2"; "userId" := JString "bob";
     "title" := JString "Blog"; "updatedAt" := JDate 200 ]}.

Definition aliceSecondProject : Row :=
  {[ "id" := JString "p3"; "userId" := JString "alice";
     "title" := JString "Portfolio"; "updatedAt" := JDate 300 ]}.

Definition shopEndpoint : Row :=
  {[ "id" := JString "e1"; "projectId" := JString "p1";
     "path" := JString "/items"; "method" := JString "GET"; "createdAt" := JDate 150 ]}.

Definition store : Db :=
  {| users := [ {[ "id" := JString "alice" ]}; {[ "id" := JString "bob" ]} ];
     projects := [aliceProject; bobProject; aliceSecondProject];
     apiEndpoints := [shopEndpoint] |}.

Definition env : ServerEnv :=
  {| now := 1000;
     generated := {[ "id" := JString "fresh"; "createdAt" := JDate 1000;
                     "updatedAt" := JDate 1000 ]};
     dbFails := λ _, false |}.

Definition start : ServerState := {| db := store; calls := [] |}.

(** Requests of the session user alice. *)
Definition request (id : string) (b : JsValue) : Request :=
  {| sub := "alice"; param := id; body := b |}.

Definition goodBody : JsValue :=
  JObject {[ "title" := JString "Store"; "userId" := JString "mallory" ]}.

(** An array is rejected by every object schema. *)
Definition badBody : JsValue := JArray [].

(** A model that answers every request with the same text. *)
Definition answering (text : option string) : nat → GenRequest → Settled :=
  λ _ _, Fulfilled text.

(** A model whose every request fails. *)
Definition failing : nat → GenRequest → Settled := λ _ _, Rejected.

(** The requests of the examples carry no number and no date, so the
    runtime is not asked for the text of one. *)
Definition scalarText (v : JsValue) : string := "".

End Sample.

(* ===================================================================== *)
(** * Vocabulary of the statements *)
(* ===================================================================== *)

(** The state after the ownership lookup. *)
Definition looked (req : Request) (s : ServerState) : ServerState :=
  {| db := db s; calls := calls s ++ [CGetProject (param req)] |}.

(** The project-scoped routes. *)
Definition projectScoped : list (Method * string) :=
  [ (GET, "/api/projects/:id");
    (PUT, "/api/projects/:id");
    (DELETE, "/api/projects/:id");
    (GET, "/api/projects/:projectId/endpoints");
    (POST, "/api/projects/:projectId/endpoints") ].

(** The object the handler validates: the body with [userId] set last. *)
Definition projectInput (req : Request) : JsObject :=
  <["userId" := JString (sub req)]> (spread (body req)).

#[global] Instance Method_eq_dec : EqDecision Method.
Proof. solve_decision. Defined.

#[global] Instance RouteGroup_eq_dec : EqDecision RouteGroup.
Proof. solve_decision. Defined.

(** Is a handler installed for this verb under this heading? *)
Definition installed (g : RouteGroup) (m : Method) : bool :=
  bool_decide (Exists (λ r, group r = g ∧ method r = m) registerRoutes).

(** The verbs installed under a heading, in order of registration. *)
Definition verbs (g : RouteGroup) : list Method :=
  method <$> filter (λ r, group r = g) registerRoutes.

(** The storage calls a handler may make: [usesOnly allowed m] when every
    call [m] logs, in every environment and from every state, is allowed. *)
Definition usesOnly {A} (allowed : Call → Prop) (m : ServerM A) : Prop :=
  ∀ (env : ServerEnv) (s : ServerState),
    ∃ made : list Call, calls (m env s).2 = calls s ++ made ∧ Forall allowed made.

(** The storage methods the routes never reach. *)
Definition routed (c : Call) : Prop :=
  match c with
  | CUpsertUser _ | CUpdateApiEndpoint _ _ | CDeleteApiEndpoint _ => False
  | _ => True
  end.

(** [body.name] for a body that is not [null]. *)
Definition bodyField (body : JsValue) (name : string) : option JsValue :=
  match body with
  | JObject o => o !! name
  | _ => None
  end.

(** The one request [buildFromPrompt] sends. *)
Definition siteRequest (userPrompt : string) : GenRequest :=
  {| model := "gemini-2.5-pro";
     responseMimeType := Some "application/json";
     contents := sitePrompt userPrompt |}.

(** The six fields of the result: name, reader and fixed default. *)
Definition siteFields : list (string * (Site → JsValue) * JsValue) :=
  [ ("title", title, JString "Generated Website");
    ("description", description, JString "Generated using AI");
    ("components", components, JArray []);
    ("htmlCode", htmlCode, JString "<!DOCTYPE html><html><head><title>Generated Site</title></head><body><h1>Generated Content</h1></body></html>");
    ("cssCode", cssCode, JString "/* Generated styles */");
    ("jsCode", jsCode, JString "// Generated JavaScript") ].

Definition defaultSite : Site :=
  {| title := JString "Generated Website";
     description := JString "Generated using AI";
     components := JArray [];
     htmlCode := JString "<!DOCTYPE html><html><head><title>Generated Site</title></head><body><h1>Generated Content</h1></body></html>";
     cssCode := JString "/* Generated styles */";
     jsCode := JString "// Generated JavaScript" |}.

Definition siteFailure : Exn := Error "Failed to generate website from prompt".

(** The response gives a title and, as [cssCode], a number: the title and
    the number are returned and the four missing fields are the defaults. *)
Definition sampleResponse : string :=
  "{" +:+ dq +:+ "title" +:+ dq +:+ ": " +:+ dq +:+ "Shop" +:+ dq +:+ ", "
      +:+ dq +:+ "cssCode" +:+ dq +:+ ": 42}".

(** The ids a table holds, in row order (rows whose [id] is not a string
    have none). *)
Definition idsOf (rows : list Row) : list string :=
  omap (λ r : Row, match r !! "id" with Some (JString id) => Some id | _ => None end) rows.

(** No two rows of the table have the same id. *)
Definition uniqueIds (rows : list Row) : Prop := NoDup (idsOf rows).

(** The statuses of a request that went through. *)
Definition succeeded (code : nat) : bool :=
  bool_decide (code = 200%nat ∨ code = 201%nat ∨ code = 204%nat).

(** A database in which every statement runs. *)
Definition dbUp (env : ServerEnv) : Prop := ∀ n : nat, dbFails env n = false.

(* ===================================================================== *)
(** * Properties of the storage facade *)
(* ===================================================================== *)

Section StorageFacts.

Implicit Types (d : Db) (r : Row) (rows : list Row) (col s id : string).

Lemma strictEqString_spec (a : option JsValue) s :
  strictEqString a s = true ↔ a = Some (JString s).
Proof.
  unfold strictEqString. destruct a as [[]|]; try (split; [discriminate|congruence]).
  rewrite String.eqb_eq. split; congruence.
Qed.

Lemma colEq_spec col s r : colEq col s r = true ↔ r !! col = Some (JString s).
Proof. apply strictEqString_spec. Qed.

Lemma table_setTable_same (t : Table) rows d : table t (setTable t rows d) = rows.
Proof. by destruct t. Qed.

Lemma table_setTable_other (t t' : Table) rows d :
  t' ≠ t → table t' (setTable t rows d) = table t' d.
Proof. by destruct t, t'. Qed.

Lemma elem_of_selectWhere col s rows r :
  r ∈ selectWhere col s rows ↔ r ∈ rows ∧ r !! col = Some (JString s).
Proof.
  unfold selectWhere. rewrite list_elem_of_filter, colEq_spec. tauto.
Qed.

Lemma deleteWhere_idemp col s rows :
  deleteWhere col s (deleteWhere col s rows) = deleteWhere col s rows.
Proof.
  unfold deleteWhere. induction rows as [|r rows IH]; [done|].
  rewrite filter_cons. case_decide as Hr; [|done].
  rewrite filter_cons, decide_True by done. by rewrite IH.
Qed.

#[local] Instance keyLe_total : Total keyLe.
Proof. intros [x|] [y|]; simpl; auto. destruct (Z.le_ge_cases x y); auto. Qed.

#[local] Instance keyLe_trans : Transitive keyLe.
Proof. intros [x|] [y|] [z|]; simpl; try tauto. apply Z.le_trans. Qed.

#[local] Instance descBy_total col : Total (descBy col).
Proof. intros r1 r2. unfold descBy. destruct (total keyLe (sortKey col r1) (sortKey col r2)); auto. Qed.

#[local] Instance descBy_trans col : Transitive (descBy col).
Proof. intros r1 r2 r3 H12 H23. unfold descBy in *. by etrans. Qed.

Lemma sorted_desc col rows : StronglySorted (descBy col) (merge_sort (descBy col) rows).
Proof. apply Sorted_StronglySorted; [apply _|]. apply Sorted_merge_sort, _. Qed.

Lemma StronglySorted_lookup {A} (R : relation A) (l : list A) i j a b :
  StronglySorted R l → (i < j)%nat → l !! i = Some a → l !! j = Some b → R a b.
Proof.
  intros Hl. revert i j. induction Hl as [|x l Hl IH Hx]; intros i j Hij Hi Hj; [done|].
  destruct j as [|j]; [lia|]. destruct i as [|i]; simpl in *.
  - simplify_eq. rewrite Forall_forall in Hx. apply Hx. by eapply list_elem_of_lookup_2.
  - apply (IH i j); [lia|done..].
Qed.

End StorageFacts.

(** ** C10 *)

(** C10.  [getUserProjects userId] returns exactly the stored projects whose
    [userId] column holds [userId] (each as often as it is stored), in
    descending order of [updatedAt]; a project of another user is not in the
    result. *)
Theorem getUserProjects_owned_sorted (userId : string) (d : Db) :
  let result := Storage.getUserProjects userId d in
  result ≡ₚ filter (λ r, colEq "userId" userId r = true) (projects d)
  ∧ (∀ r : Row, r ∈ result ↔ r ∈ projects d ∧ r !! "userId" = Some (JString userId))
  ∧ StronglySorted (descBy "updatedAt") result
  ∧ (∀ (i j : nat) (a b : Row) (ta tb : Z),
       (i < j)%nat → result !! i = Some a → result !! j = Some b →
       a !! "updatedAt" = Some (JDate ta) → b !! "updatedAt" = Some (JDate tb) →
       (tb ≤ ta)%Z)
  ∧ (∀ (r : Row) (other : string),
       r ∈ result → other ≠ userId → r !! "userId" ≠ Some (JString other)).
Proof.
  intros result. subst result. unfold Storage.getUserProjects.
  assert (Hperm := merge_sort_Permutation (descBy "updatedAt")
                     (selectWhere "userId" userId (projects d))).
  assert (Hsorted := sorted_desc "updatedAt" (selectWhere "userId" userId (projects d))).
  split; [exact Hperm|].
  split; [intros r; rewrite Hperm; apply elem_of_selectWhere|].
  split; [exact Hsorted|].
  split.
  - intros i j a b ta tb Hij Hi Hj Ha Hb.
    pose proof (StronglySorted_lookup _ _ _ _ _ _ Hsorted Hij Hi Hj) as Hab.
    unfold descBy, sortKey in Hab. by rewrite Ha, Hb in Hab.
  - intros r other Hr Hne Hother. rewrite Hperm in Hr.
    apply elem_of_selectWhere in Hr as [_ Hr]. congruence.
Qed.

(** ** C2 *)

Lemma perform_frame (now : Z) (generated : Row) (c : Call) (d : Db) (t : Table) :
  t ≠ tableOf c → table t (perform now generated c d).2 = table t d.
Proof.
  intros Ht. destruct c; simpl in *; try done;
    try (by destruct t).
  unfold Storage.upsertUser.
  destruct (inserted generated userData !! "id") as [[]|]; simpl;
    try (by destruct t).
  destruct (selectWhere "id" s (users d)); simpl; by destruct t.
Qed.

Lemma perform_local (now : Z) (generated : Row) (c : Call) (d d' : Db) :
  table (tableOf c) d' = table (tableOf c) d →
  (perform now generated c d').1 = (perform now generated c d).1
  ∧ table (tableOf c) (perform now generated c d').2
    = table (tableOf c) (perform now generated c d).2.
Proof.
  intros Ht. destruct c; simpl in *;
    unfold Storage.getUser, Storage.getUserProjects, Storage.getProject,
      Storage.getProjectEndpoints; rewrite ?Ht; try done.
  unfold Storage.upsertUser. rewrite Ht.
  destruct (inserted generated userData !! "id") as [[]|]; simpl; try done.
  destruct (selectWhere "id" s (users d)); simpl; done.
Qed.

(** C2.  Every storage method works on one table: the other tables are left
    as they were, and what the method answers and how it leaves its own table
    depend on that table alone.  In particular [deleteProject id] removes the
    rows of [projects] with that id and nothing else: [users] and
    [apiEndpoints] are unchanged, so the endpoints of the deleted project are
    still stored. *)
Theorem storage_single_table :
  (∀ (now : Z) (generated : Row) (c : Call) (d : Db),
     (∀ t : Table, t ≠ tableOf c → table t (perform now generated c d).2 = table t d)
     ∧ (∀ d' : Db, table (tableOf c) d' = table (tableOf c) d →
          (perform now generated c d').1 = (perform now generated c d).1
          ∧ table (tableOf c) (perform now generated c d').2
            = table (tableOf c) (perform now generated c d).2))
  ∧ (∀ (id : string) (d : Db),
       users (Storage.deleteProject id d) = users d
       ∧ apiEndpoints (Storage.deleteProject id d) = apiEndpoints d
       ∧ projects (Storage.deleteProject id d)
         = filter (λ r : Row, colEq "id" id r = false) (projects d)
       ∧ Storage.getProjectEndpoints id (Storage.deleteProject id d)
         = Storage.getProjectEndpoints id d).
Proof.
  split.
  - intros now generated c d. split.
    + intros t. apply perform_frame.
    + intros d'. apply perform_local.
  - intros id d. done.
Qed.

(** The endpoints of a project are still stored, and still listed, after the
    project is deleted. *)
Example deleteProject_keeps_endpoints :
  let d := {| users := [];
              projects := [ {[ "id" := JString "p1"; "userId" := JString "alice" ]} ];
              apiEndpoints := [ {[ "id" := JString "e1"; "projectId" := JString "p1" ]} ] |} in
  projects (Storage.deleteProject "p1" d) = []
  ∧ apiEndpoints (Storage.deleteProject "p1" d)
    = [ {[ "id" := JString "e1"; "projectId" := JString "p1" ]} ]
  ∧ length (Storage.getProjectEndpoints "p1" (Storage.deleteProject "p1" d)) = 1%nat.
Proof. vm_compute. done. Qed.

(** ** C4 *)

Lemma updateWhere_idemp (col s : string) (values : Row) (rows : list Row) :
  updateWhere col s values (updateWhere col s values rows) = updateWhere col s values rows.
Proof.
  unfold updateWhere. rewrite <- list_fmap_compose. apply list_fmap_ext.
  intros _ r _. simpl. destruct (colEq col s r) eqn:Hr; [|by rewrite Hr].
  destruct (colEq col s (values ∪ r)); [|done].
  by rewrite (assoc_L (∪)), (idemp_L (∪)).
Qed.

Lemma stamped_twice (now1 now2 : Z) (u r : Row) :
  delete "updatedAt" (<["updatedAt" := JDate now2]> u ∪ (<["updatedAt" := JDate now1]> u ∪ r))
  = delete "updatedAt" (<["updatedAt" := JDate now1]> u ∪ r).
Proof.
  apply map_eq. intros k. destruct (decide (k = "updatedAt")) as [->|Hk].
  - by rewrite !lookup_delete_eq.
  - rewrite !lookup_delete_ne by done.
    rewrite !lookup_union, !lookup_insert_ne by done.
    by destruct (u !! k), (r !! k).
Qed.

Lemma updateWhere_twice (col s : string) (now1 now2 : Z) (u : Row) (rows : list Row) :
  map (delete "updatedAt")
    (updateWhere col s (<["updatedAt" := JDate now2]> u)
       (updateWhere col s (<["updatedAt" := JDate now1]> u) rows))
  = map (delete "updatedAt") (updateWhere col s (<["updatedAt" := JDate now1]> u) rows).
Proof.
  unfold updateWhere. rewrite <- !list_fmap_compose. apply list_fmap_ext.
  intros _ r _. simpl. destruct (colEq col s r) eqn:Hr; [|by rewrite Hr].
  destruct (colEq col s (<["updatedAt" := JDate now1]> u ∪ r)); [|done].
  apply stamped_twice.
Qed.

(** C4, as the code has it.  [deleteProject] is idempotent.  [updateProject]
    stamps [updatedAt] with the clock at each call: a second application of
    the same update leaves every column other than [updatedAt] (and the other
    tables) as the first left them, and the whole datastore when both calls
    read the same clock. *)
Theorem delete_idempotent_update_modulo_updatedAt :
  (∀ (id : string) (d : Db),
     Storage.deleteProject id (Storage.deleteProject id d) = Storage.deleteProject id d)
  ∧ (∀ (now1 now2 : Z) (id : string) (u : Row) (d : Db),
       let once := (Storage.updateProject now1 id u d).2 in
       let twice := (Storage.updateProject now2 id u once).2 in
       users twice = users once
       ∧ apiEndpoints twice = apiEndpoints once
       ∧ map (delete "updatedAt") (projects twice)
         = map (delete "updatedAt") (projects once))
  ∧ (∀ (now : Z) (id : string) (u : Row) (d : Db),
       (Storage.updateProject now id u (Storage.updateProject now id u d).2).2
       = (Storage.updateProject now id u d).2).
Proof.
  split; [|split].
  - intros id d. unfold Storage.deleteProject. simpl. by rewrite deleteWhere_idemp.
  - intros now1 now2 id u d. simpl. split; [done|]. split; [done|].
    apply updateWhere_twice.
  - intros now id u d. simpl. by rewrite updateWhere_idemp.
Qed.

(** The same update applied at clock readings 1 and then 2: the stored
    project carries 2 after the second application and 1 after the first
    alone, so the two states differ. *)
Example updateProject_twice_restamps :
  let d := {| users := [];
              projects := [ {[ "id" := JString "p1"; "title" := JString "Shop" ]} ];
              apiEndpoints := [] |} in
  let u : Row := {[ "title" := JString "Store" ]} in
  let once := (Storage.updateProject 1 "p1" u d).2 in
  let twice := (Storage.updateProject 2 "p1" u once).2 in
  (projects once !! 0%nat) ≫= (.!! "updatedAt") = Some (JDate 1)
  ∧ (projects twice !! 0%nat) ≫= (.!! "updatedAt") = Some (JDate 2)
  ∧ (twice = once ↔ False).
Proof.
  vm_compute. split; [done|]. split; [done|]. split; [|done].
  intros H. injection H as H. discriminate.
Qed.

(* ===================================================================== *)
(** * Properties of the route layer *)
(* ===================================================================== *)

Section RouteFacts.

Implicit Types (req : Request) (env : ServerEnv) (s : ServerState).

Lemma withOwnedProject_run req (continue : Row → ServerM Response) env s :
  withOwnedProject req continue env s =
    if dbFails env (length (calls s)) then (Throw DbError, looked req s)
    else
      match Storage.getProject (param req) (db s) with
      | None => (Return {| status := 404; payload := Message "Project not found" |}, looked req s)
      | Some project =>
          if strictNeString (project !! "userId") (sub req)
          then (Return {| status := 403; payload := Message "Access denied" |}, looked req s)
          else continue project env (looked req s)
      end.
Proof.
  unfold withOwnedProject, getProject, bind, storage, looked. simpl.
  destruct (dbFails env (length (calls s))); [done|]. simpl.
  destruct (Storage.getProject (param req) (db s)) as [project|]; simpl; [|done].
  by destruct (strictNeString (project !! "userId") (sub req)).
Qed.

Lemma strictNeString_true (a : option JsValue) (u : string) :
  a ≠ Some (JString u) → strictNeString a u = true.
Proof.
  intros Ha. unfold strictNeString. destruct (strictEqString a u) eqn:Heq; [|done].
  by apply strictEqString_spec in Heq.
Qed.

Lemma strictNeString_false (a : option JsValue) (u : string) :
  a = Some (JString u) → strictNeString a u = false.
Proof.
  intros Ha. unfold strictNeString. apply strictEqString_spec in Ha. by rewrite Ha.
Qed.

(** A foreign project stops the guard at 403, whatever would follow. *)
Lemma withOwnedProject_denied req (continue : Row → ServerM Response) env s project :
  dbFails env (length (calls s)) = false →
  Storage.getProject (param req) (db s) = Some project →
  project !! "userId" ≠ Some (JString (sub req)) →
  withOwnedProject req continue env s
  = (Return {| status := 403; payload := Message "Access denied" |}, looked req s).
Proof.
  intros Hrun Hget Hother. rewrite withOwnedProject_run, Hrun, Hget.
  by rewrite strictNeString_true.
Qed.

End RouteFacts.

(** ** C1 *)

(** C1.  On each of the five project-scoped routes, when the lookup finds
    the project and its [userId] is not the session user's id, the handler
    answers 403 "Access denied"; the datastore is as before and the lookup is
    the only storage call made: nothing is written and the endpoints are not
    read. *)
Theorem foreign_project_denied (sch : Schemas) (m : Method) (p : string)
    (h : Request → ServerM Response) (req : Request) (env : ServerEnv)
    (s : ServerState) (project : Row) :
  (m, p) ∈ projectScoped →
  handlerOf sch m p = Some h →
  dbFails env (length (calls s)) = false →
  Storage.getProject (param req) (db s) = Some project →
  project !! "userId" ≠ Some (JString (sub req)) →
  h req env s
  = (Return {| status := 403; payload := Message "Access denied" |},
     {| db := db s; calls := calls s ++ [CGetProject (param req)] |}).
Proof.
  intros Hroute Hh Hrun Hget Hother.
  unfold projectScoped in Hroute. rewrite !elem_of_cons, elem_of_nil in Hroute.
  destruct Hroute as [H|[H|[H|[H|[H|[]]]]]]; injection H as -> ->;
    simpl in Hh; injection Hh as <-;
    unfold Routes.readProject, Routes.putProject, Routes.removeProject,
      Routes.listEndpoints, Routes.postEndpoint, tryCatch;
    by rewrite (withOwnedProject_denied _ _ _ _ project).
Qed.

(** Alice asks to overwrite Bob's project: 403, and nothing but the lookup
    has happened. *)
Lemma foreign_project_denied_witness :
  Routes.putProject Sample.schemas (Sample.request "p2" Sample.goodBody) Sample.env Sample.start
  = (Return {| status := 403; payload := Message "Access denied" |},
     {| db := Sample.store; calls := [CGetProject "p2"] |}).
Proof.
  apply (foreign_project_denied Sample.schemas PUT "/api/projects/:id"
           (Routes.putProject Sample.schemas) (Sample.request "p2" Sample.goodBody)
           Sample.env Sample.start Sample.bobProject).
  - unfold projectScoped. repeat constructor.
  - reflexivity.
  - reflexivity.
  - vm_compute. reflexivity.
  - vm_compute. discriminate.
Defined.

(** ** Zod parsing *)

Lemma parseShape_sub (shape : ZodObject) (o : JsObject) (k : string) (v : JsValue) :
  (parseShape shape o).2 !! k = Some v → o !! k = Some v.
Proof.
  induction shape as [|[k' t] shape IH]; simpl; [by rewrite lookup_empty|].
  destruct (parseShape shape o) as [issues out]. simpl in IH.
  destruct (o !! k') as [v'|] eqn:Hk'.
  - destruct (accepts t v'); simpl; [|done].
    destruct (decide (k' = k)) as [->|Hne].
    + rewrite lookup_insert_eq. congruence.
    + by rewrite lookup_insert_ne.
  - by destruct (optional t).
Qed.

Lemma parseShape_keeps (shape : ZodObject) (o : JsObject) (k : string) :
  k ∈ shape.*1 → (parseShape shape o).1 = [] → (parseShape shape o).2 !! k = o !! k.
Proof.
  induction shape as [|[k' t] shape IH]; simpl; [by rewrite elem_of_nil|].
  pose proof (parseShape_sub shape o k) as Hsub.
  destruct (parseShape shape o) as [issues out]. simpl in IH, Hsub.
  rewrite elem_of_cons. intros Hk Hok.
  destruct (o !! k') as [v'|] eqn:Hk'.
  - destruct (accepts t v'); simpl in *; [|done].
    destruct (decide (k' = k)) as [->|Hne].
    + by rewrite lookup_insert_eq.
    + rewrite lookup_insert_ne by done. destruct Hk as [->|Hk]; [done|]. by apply IH.
  - destruct (optional t); simpl in *; [|done].
    destruct (decide (k' = k)) as [->|Hne].
    + rewrite Hk'. destruct (out !! k) as [v|] eqn:Hout; [|done].
      specialize (Hsub v eq_refl). congruence.
    + destruct Hk as [->|Hk]; [done|]. by apply IH.
Qed.

(** A successful parse keeps the value of every declared key the input has. *)
Lemma parse_keeps (schema : ZodObject) (o out : JsObject) (k : string) :
  k ∈ schema.*1 → parse schema (JObject o) = inr out → out !! k = o !! k.
Proof.
  intros Hk. unfold parse.
  pose proof (parseShape_keeps schema o k Hk) as Hkeeps.
  destruct (parseShape schema o) as [[|issue issues] out']; [|done].
  intros [= <-]. by apply Hkeeps.
Qed.

(** ** POST /api/projects *)

Lemma postProject_run (sch : Schemas) (req : Request) (env : ServerEnv) (s : ServerState) :
  Routes.postProject sch req env s =
    match parse (insertProjectSchema sch) (JObject (projectInput req)) with
    | inl issues =>
        (Return {| status := 400; payload := Invalid "Invalid project data" issues |}, s)
    | inr projectData =>
        let log := calls s ++ [CCreateProject projectData] in
        if dbFails env (length (calls s))
        then (Return {| status := 500; payload := Message "Failed to create project" |},
              {| db := db s; calls := log |})
        else
          let row := inserted (generated env) projectData in
          (Return {| status := 201; payload := Json (Some row) |},
           {| db := setTable Projects (projects (db s) ++ [row]) (db s); calls := log |})
    end.
Proof.
  unfold Routes.postProject, tryCatch, bind, zodParse, projectInput.
  destruct (parse _ _) as [issues|projectData]; simpl; [done|].
  unfold createProject, bind, storage.
  by destruct (dbFails env (length (calls s))).
Qed.

(** C3, as the code has it.  A project created through POST /api/projects
    is stored with the session user's id as its [userId].  A [userId] in the
    body has no effect on what the handler does, the object that is validated
    carrying the session user's id in its place; and (the insert schema
    declaring [userId]) an accepted input is passed to storage with that
    [userId] and, the statement running, answered 201 with the one project
    that is appended, whose [userId] is the session user's id.  An input that
    is not accepted is answered 400 and a failed statement 500, nothing being
    stored.  This is the owner at creation: it is not said to stay. *)
Theorem created_project_owned_at_creation (sch : Schemas) (req : Request)
    (env : ServerEnv) (s : ServerState) :
  "userId" ∈ (insertProjectSchema sch).*1 →
  (∀ (o : JsObject) (v : JsValue),
     body req = JObject o →
     Routes.postProject sch
       {| sub := sub req; param := param req; body := JObject (<["userId" := v]> o) |} env s
     = Routes.postProject sch req env s)
  ∧ match parse (insertProjectSchema sch)
            (JObject (<["userId" := JString (sub req)]> (spread (body req)))) with
    | inl issues =>
        Routes.postProject sch req env s
        = (Return {| status := 400; payload := Invalid "Invalid project data" issues |}, s)
    | inr projectData =>
        projectData !! "userId" = Some (JString (sub req))
        ∧ if dbFails env (length (calls s))
          then
            Routes.postProject sch req env s
            = (Return {| status := 500; payload := Message "Failed to create project" |},
               {| db := db s; calls := calls s ++ [CCreateProject projectData] |})
          else
            ∃ row : Row,
              Routes.postProject sch req env s
              = (Return {| status := 201; payload := Json (Some row) |},
                 {| db := {| users := users (db s);
                             projects := projects (db s) ++ [row];
                             apiEndpoints := apiEndpoints (db s) |};
                    calls := calls s ++ [CCreateProject projectData] |})
              ∧ row !! "userId" = Some (JString (sub req))
              ∧ ∀ (k : string) (v : JsValue), projectData !! k = Some v → row !! k = Some v
    end.
Proof.
  intros Hdeclared. split.
  - intros o v Hbody. rewrite !postProject_run. unfold projectInput. simpl.
    rewrite Hbody. simpl. by rewrite insert_insert_eq.
  - rewrite postProject_run. unfold projectInput.
    destruct (parse _ _) as [issues|projectData] eqn:Hparse; [done|].
    assert (Huser : projectData !! "userId" = Some (JString (sub req))).
    { rewrite (parse_keeps _ _ _ _ Hdeclared Hparse). apply lookup_insert_eq. }
    split; [done|]. simpl.
    destruct (dbFails env (length (calls s))); [done|].
    exists (inserted (generated env) projectData). split; [done|].
    split; [by apply lookup_union_Some_l|].
    intros k v Hk. by apply lookup_union_Some_l.
Qed.

(** Alice posts a project that names mallory as its owner: it is stored as
    hers. *)
Example postProject_overrides_userId :
  ∃ row : Row,
    Routes.postProject Sample.schemas (Sample.request "" Sample.goodBody)
      Sample.env Sample.start
    = (Return {| status := 201; payload := Json (Some row) |},
       {| db := setTable Projects (projects Sample.store ++ [row]) Sample.store;
          calls := [CCreateProject {[ "title" := JString "Store";
                                      "userId" := JString "alice" ]}] |})
    ∧ row !! "userId" = Some (JString "alice")
    ∧ row !! "title" = Some (JString "Store")
    ∧ row !! "id" = Some (JString "fresh").
Proof. eexists. vm_compute. repeat split. Qed.

Lemma created_project_owned_at_creation_witness :
  "userId" ∈ (insertProjectSchema Sample.schemas).*1
  ∧ ({[ "title" := JString "Store"; "userId" := JString "alice" ]} : Row) !! "userId"
    = Some (JString "alice")
  ∧ ∃ row : Row,
      Routes.postProject Sample.schemas (Sample.request "" Sample.goodBody)
        Sample.env Sample.start
      = (Return {| status := 201; payload := Json (Some row) |},
         {| db := {| users := users Sample.store;
                     projects := projects Sample.store ++ [row];
                     apiEndpoints := apiEndpoints Sample.store |};
            calls := [CCreateProject {[ "title" := JString "Store";
                                        "userId" := JString "alice" ]}] |})
      ∧ row !! "userId" = Some (JString "alice")
      ∧ ∀ (k : string) (v : JsValue),
          ({[ "title" := JString "Store"; "userId" := JString "alice" ]} : Row) !! k = Some v →
          row !! k = Some v.
Proof.
  assert (Hdeclared : "userId" ∈ (insertProjectSchema Sample.schemas).*1)
    by (vm_compute; repeat constructor).
  split; [exact Hdeclared|].
  pose proof (proj2 (created_project_owned_at_creation Sample.schemas
                       (Sample.request "" Sample.goodBody) Sample.env Sample.start Hdeclared))
    as Hcreated.
  vm_compute in Hcreated. vm_compute. exact Hcreated.
Defined.

(** What is established at creation is not protected afterwards: the partial
    insert schema declares [userId] like any other key, so the owner of a
    project can hand it over with PUT /api/projects/:id. *)
Example putProject_accepts_userId :
  (Routes.putProject Sample.schemas
     (Sample.request "p1" (JObject {[ "userId" := JString "bob" ]}))
     Sample.env Sample.start).1
  = Return {| status := 200;
              payload := Json (Some (<["userId" := JString "bob"]>
                                       (<["updatedAt" := JDate 1000]> Sample.aliceProject))) |}.
Proof. vm_compute. reflexivity. Qed.

(** Alice creates a project, owned by her, and then sends PUT with
    [userId: bob] for it: the request is accepted, and the project she
    created is stored as Bob's. *)
Example created_project_changes_owner :
  ∃ (created updated : Row) (s1 s2 : ServerState),
    Routes.postProject Sample.schemas (Sample.request "" Sample.goodBody)
      Sample.env Sample.start
    = (Return {| status := 201; payload := Json (Some created) |}, s1)
    ∧ created !! "id" = Some (JString "fresh")
    ∧ created !! "userId" = Some (JString "alice")
    ∧ Routes.putProject Sample.schemas
        (Sample.request "fresh" (JObject {[ "userId" := JString "bob" ]})) Sample.env s1
      = (Return {| status := 200; payload := Json (Some updated) |}, s2)
    ∧ Storage.getProject "fresh" (db s2) = Some updated
    ∧ updated !! "userId" = Some (JString "bob").
Proof.
  exists (inserted (generated Sample.env)
            {[ "title" := JString "Store"; "userId" := JString "alice" ]}).
  exists (<["updatedAt" := JDate 1000]> {[ "userId" := JString "bob" ]}
          ∪ inserted (generated Sample.env)
              {[ "title" := JString "Store"; "userId" := JString "alice" ]}).
  exists (Routes.postProject Sample.schemas (Sample.request "" Sample.goodBody)
            Sample.env Sample.start).2.
  exists (Routes.putProject Sample.schemas
            (Sample.request "fresh" (JObject {[ "userId" := JString "bob" ]})) Sample.env
            (Routes.postProject Sample.schemas (Sample.request "" Sample.goodBody)
               Sample.env Sample.start).2).2.
  repeat split.
Qed.

(** ** Validation failures *)

Lemma putProject_run (sch : Schemas) (req : Request) (env : ServerEnv) (s : ServerState)
    (project : Row) :
  dbFails env (length (calls s)) = false →
  Storage.getProject (param req) (db s) = Some project →
  project !! "userId" = Some (JString (sub req)) →
  Routes.putProject sch req env s =
    match parse (partial (insertProjectSchema sch)) (body req) with
    | inl issues =>
        (Return {| status := 400; payload := Invalid "Invalid project data" issues |},
         looked req s)
    | inr updates =>
        let log := calls s ++ [CGetProject (param req); CUpdateProject (param req) updates] in
        if dbFails env (S (length (calls s)))
        then (Return {| status := 500; payload := Message "Failed to update project" |},
              {| db := db s; calls := log |})
        else
          let '(row, d) := Storage.updateProject (now env) (param req) updates (db s) in
          (Return {| status := 200; payload := Json row |}, {| db := d; calls := log |})
    end.
Proof.
  intros Hrun Hget Hown. unfold Routes.putProject, tryCatch.
  rewrite withOwnedProject_run, Hrun, Hget, (strictNeString_false _ _ Hown).
  unfold bind, zodParse.
  destruct (parse _ _) as [issues|updates]; simpl; [done|].
  unfold updateProject, bind, storage, looked. simpl.
  rewrite length_app, Nat.add_1_r, <- app_assoc. simpl.
  by destruct (dbFails env (S (length (calls s)))).
Qed.

Lemma postEndpoint_run (sch : Schemas) (req : Request) (env : ServerEnv) (s : ServerState)
    (project : Row) :
  dbFails env (length (calls s)) = false →
  Storage.getProject (param req) (db s) = Some project →
  project !! "userId" = Some (JString (sub req)) →
  Routes.postEndpoint sch req env s =
    match parse (insertApiEndpointSchema sch)
            (JObject (<["projectId" := JString (param req)]> (spread (body req)))) with
    | inl issues =>
        (Return {| status := 400; payload := Invalid "Invalid endpoint data" issues |},
         looked req s)
    | inr endpointData =>
        let log := calls s ++ [CGetProject (param req); CCreateApiEndpoint endpointData] in
        if dbFails env (S (length (calls s)))
        then (Return {| status := 500; payload := Message "Failed to create endpoint" |},
              {| db := db s; calls := log |})
        else
          let row := inserted (generated env) endpointData in
          (Return {| status := 201; payload := Json (Some row) |},
           {| db := setTable ApiEndpoints (apiEndpoints (db s) ++ [row]) (db s);
              calls := log |})
    end.
Proof.
  intros Hrun Hget Hown. unfold Routes.postEndpoint, tryCatch.
  rewrite withOwnedProject_run, Hrun, Hget, (strictNeString_false _ _ Hown).
  unfold bind, zodParse.
  destruct (parse _ _) as [issues|endpointData]; simpl; [done|].
  unfold createApiEndpoint, bind, storage, looked. simpl.
  rewrite length_app, Nat.add_1_r, <- app_assoc. simpl.
  by destruct (dbFails env (S (length (calls s)))).
Qed.

(** Whatever the guard decides, a handler whose validation would fail does
    not reach storage with a write. *)
Lemma guarded_invalid_keeps_db (req : Request) (env : ServerEnv) (s : ServerState)
    (schema : ZodObject) (input : JsValue) (issues : list ZodIssue)
    (write : JsObject → ServerM Response) (handler : Exn → ServerM Response) :
  parse schema input = inl issues →
  (∀ e env' s', db (handler e env' s').2 = db s') →
  db (tryCatch (withOwnedProject req (λ _, let* data := zodParse schema input in write data))
        handler env s).2 = db s.
Proof.
  intros Hparse Hhandler. unfold tryCatch. rewrite withOwnedProject_run.
  destruct (dbFails env (length (calls s))); [by rewrite Hhandler|].
  destruct (Storage.getProject (param req) (db s)) as [project|]; [|done].
  destruct (strictNeString (project !! "userId") (sub req)); [done|].
  unfold bind, zodParse. rewrite Hparse. simpl. by rewrite Hhandler.
Qed.

(** ** C5 *)

(** C5, as the code has it.  A body that fails validation is answered 400
    with the issues of the [ZodError] by POST /api/projects always, and by
    PUT /api/projects/:id (validated against the partial insert schema) and
    POST /api/projects/:projectId/endpoints once the ownership guard has
    passed: the project was found and belongs to the session user.  In every
    case the datastore is unchanged. *)
Theorem invalid_body_rejected (sch : Schemas) (req : Request) (env : ServerEnv)
    (s : ServerState) (issues : list ZodIssue) :
  (parse (insertProjectSchema sch) (JObject (projectInput req)) = inl issues →
     Routes.postProject sch req env s
     = (Return {| status := 400; payload := Invalid "Invalid project data" issues |}, s))
  ∧ (parse (partial (insertProjectSchema sch)) (body req) = inl issues →
       db (Routes.putProject sch req env s).2 = db s
       ∧ ∀ project : Row,
           dbFails env (length (calls s)) = false →
           Storage.getProject (param req) (db s) = Some project →
           project !! "userId" = Some (JString (sub req)) →
           Routes.putProject sch req env s
           = (Return {| status := 400; payload := Invalid "Invalid project data" issues |},
              {| db := db s; calls := calls s ++ [CGetProject (param req)] |}))
  ∧ (parse (insertApiEndpointSchema sch)
       (JObject (<["projectId" := JString (param req)]> (spread (body req)))) = inl issues →
       db (Routes.postEndpoint sch req env s).2 = db s
       ∧ ∀ project : Row,
           dbFails env (length (calls s)) = false →
           Storage.getProject (param req) (db s) = Some project →
           project !! "userId" = Some (JString (sub req)) →
           Routes.postEndpoint sch req env s
           = (Return {| status := 400; payload := Invalid "Invalid endpoint data" issues |},
              {| db := db s; calls := calls s ++ [CGetProject (param req)] |})).
Proof.
  split; [|split].
  - intros Hparse. by rewrite postProject_run, Hparse.
  - intros Hparse. split.
    + unfold Routes.putProject.
      apply (guarded_invalid_keeps_db _ _ _ _ _ issues); [done|].
      by intros [] env' s'.
    + intros project Hrun Hget Hown.
      by rewrite (putProject_run _ _ _ _ project), Hparse.
  - intros Hparse. split.
    + unfold Routes.postEndpoint.
      apply (guarded_invalid_keeps_db _ _ _ _ _ issues); [done|].
      by intros [] env' s'.
    + intros project Hrun Hget Hown.
      by rewrite (postEndpoint_run _ _ _ _ project), Hparse.
Qed.

(** An array as body fails the partial insert schema, as it fails every
    object schema.  Sent to a project that does not exist it is answered 404,
    and sent to Bob's project 403: the guard runs before validation.  Sent to
    Alice's own project it is answered 400. *)
Example invalid_body_behind_guard :
  parse (partial (insertProjectSchema Sample.schemas)) Sample.badBody = inl [IssueNotObject]
  ∧ Routes.putProject Sample.schemas (Sample.request "nope" Sample.badBody)
      Sample.env Sample.start
    = (Return {| status := 404; payload := Message "Project not found" |},
       {| db := Sample.store; calls := [CGetProject "nope"] |})
  ∧ Routes.putProject Sample.schemas (Sample.request "p2" Sample.badBody)
      Sample.env Sample.start
    = (Return {| status := 403; payload := Message "Access denied" |},
       {| db := Sample.store; calls := [CGetProject "p2"] |})
  ∧ Routes.postEndpoint Sample.schemas
      {| sub := "alice"; param := "p2"; body := JObject {[ "path" := JNull ]} |}
      Sample.env Sample.start
    = (Return {| status := 403; payload := Message "Access denied" |},
       {| db := Sample.store; calls := [CGetProject "p2"] |})
  ∧ Routes.putProject Sample.schemas (Sample.request "p1" Sample.badBody)
      Sample.env Sample.start
    = (Return {| status := 400; payload := Invalid "Invalid project data" [IssueNotObject] |},
       {| db := Sample.store; calls := [CGetProject "p1"] |}).
Proof. vm_compute. repeat split. Qed.

(** An empty body fails the insert schema ([title] is required) and passes
    its partial form: PUT accepts it and re-stamps the project. *)
Example put_validates_partial_schema :
  parse (insertProjectSchema Sample.schemas) (JObject ∅)
  = inl [IssueRequired "userId"; IssueRequired "title"]
  ∧ parse (partial (insertProjectSchema Sample.schemas)) (JObject ∅) = inr ∅
  ∧ (Routes.putProject Sample.schemas (Sample.request "p1" (JObject ∅))
       Sample.env Sample.start).1
    = Return {| status := 200;
                payload := Json (Some (<["updatedAt" := JDate 1000]> Sample.aliceProject)) |}.
Proof. vm_compute. repeat split. Qed.

(** ** C6 *)

(** C6, as the code has it.  [registerRoutes] installs a POST, a GET, a PUT
    and a DELETE handler for projects (two GET handlers: the list and one
    project), and for API endpoints a GET and a POST handler only. *)
Theorem installed_handlers :
  (∀ m : Method, installed ProjectRoutes m = true)
  ∧ verbs ProjectRoutes = [GET; GET; POST; PUT; DELETE]
  ∧ verbs ApiEndpointRoutes = [GET; POST]
  ∧ (∀ r : Route, r ∈ registerRoutes → group r = ApiEndpointRoutes →
       path r = "/api/projects/:projectId/endpoints" ∧ (method r = GET ∨ method r = POST))
  ∧ (∀ (m : Method) (p : string) (sch : Schemas),
       is_Some (handlerOf sch m p)
       ↔ ∃ r : Route, r ∈ registerRoutes ∧ method r = m ∧ path r = p ∧ group r ≠ AiRoutes).
Proof.
  split; [by intros []|]. split; [done|]. split; [done|]. split.
  - intros r Hr Hg. unfold registerRoutes in Hr.
    rewrite !elem_of_cons, elem_of_nil in Hr.
    destruct Hr as [->|[->|[->|[->|[->|[->|[->|[->|[->|[->|[]]]]]]]]]]];
      simpl in *; try discriminate; auto.
  - intros m p sch. split.
    + intros [h Hh].
      assert (Hroute : ∃ g, g ≠ AiRoutes
                ∧ {| method := m; path := p; group := g |} ∈ registerRoutes).
      { unfold registerRoutes. destruct m; simpl in Hh;
          repeat match type of Hh with
          | (if String.eqb p ?q then _ else _) = _ =>
              destruct (String.eqb_spec p q) as [->|_]
          end; try discriminate;
          first [ exists AuthRoutes; split; [done|]; rewrite !elem_of_cons; tauto
                | exists ProjectRoutes; split; [done|]; rewrite !elem_of_cons; tauto
                | exists ApiEndpointRoutes; split; [done|]; rewrite !elem_of_cons; tauto ]. }
      destruct Hroute as (g & Hg & Hr). by eexists {| method := m; path := p; group := g |}.
    + intros (r & Hr & <- & <- & Hg). unfold registerRoutes in Hr.
      rewrite !elem_of_cons, elem_of_nil in Hr.
      destruct Hr as [->|[->|[->|[->|[->|[->|[->|[->|[->|[->|[]]]]]]]]]]];
        simpl in *; try done; by eexists.
Qed.

(** No PUT and no DELETE handler is installed for API endpoints. *)
Example endpoints_without_put_delete :
  installed ApiEndpointRoutes PUT = false
  ∧ installed ApiEndpointRoutes DELETE = false
  ∧ installed ApiEndpointRoutes GET = true
  ∧ installed ApiEndpointRoutes POST = true.
Proof. vm_compute. repeat split. Qed.

(** ** The storage methods behind the routes *)

Section UsesOnly.

Context (allowed : Call → Prop).

Lemma usesOnly_ret {A} (a : A) : usesOnly allowed (ret a).
Proof. intros env s. exists []. by rewrite app_nil_r. Qed.

Lemma usesOnly_throw {A} (e : Exn) : usesOnly allowed (throw (A := A) e).
Proof. intros env s. exists []. by rewrite app_nil_r. Qed.

Lemma usesOnly_storage (c : Call) : allowed c → usesOnly allowed (storage c).
Proof.
  intros Hc env s. exists [c]. split; [|by constructor].
  unfold storage. destruct (dbFails env (length (calls s))); [done|].
  by destruct (perform (now env) (generated env) c (db s)).
Qed.

Lemma usesOnly_bind {A B} (m : ServerM A) (k : A → ServerM B) :
  usesOnly allowed m → (∀ a, usesOnly allowed (k a)) → usesOnly allowed (bind m k).
Proof.
  intros Hm Hk env s. unfold bind.
  destruct (Hm env s) as (made & Hmade & Hallowed).
  destruct (m env s) as [[a|e] s1]; simpl in *.
  - destruct (Hk a env s1) as (made' & Hmade' & Hallowed').
    exists (made ++ made'). rewrite Hmade', Hmade, app_assoc.
    split; [done|]. by apply Forall_app.
  - by exists made.
Qed.

Lemma usesOnly_tryCatch {A} (m : ServerM A) (handler : Exn → ServerM A) :
  usesOnly allowed m → (∀ e, usesOnly allowed (handler e)) →
  usesOnly allowed (tryCatch m handler).
Proof.
  intros Hm Hh env s. unfold tryCatch.
  destruct (Hm env s) as (made & Hmade & Hallowed).
  destruct (m env s) as [[a|e] s1]; simpl in *.
  - by exists made.
  - destruct (Hh e env s1) as (made' & Hmade' & Hallowed').
    exists (made ++ made'). rewrite Hmade', Hmade, app_assoc.
    split; [done|]. by apply Forall_app.
Qed.

Lemma usesOnly_zodParse (schema : ZodObject) (input : JsValue) :
  usesOnly allowed (zodParse schema input).
Proof.
  unfold zodParse. destruct (parse schema input); [apply usesOnly_throw|apply usesOnly_ret].
Qed.

Lemma usesOnly_withOwnedProject (req : Request) (continue : Row → ServerM Response) :
  allowed (CGetProject (param req)) →
  (∀ project, usesOnly allowed (continue project)) →
  usesOnly allowed (withOwnedProject req continue).
Proof.
  intros Hget Hcontinue. unfold withOwnedProject, getProject.
  apply usesOnly_bind.
  - apply usesOnly_bind; [by apply usesOnly_storage|intros; apply usesOnly_ret].
  - intros [project|]; [|apply usesOnly_ret].
    destruct (strictNeString _ _); [apply usesOnly_ret|apply Hcontinue].
Qed.

End UsesOnly.

#[local] Ltac uses_only :=
  repeat first
    [ apply usesOnly_tryCatch | apply usesOnly_withOwnedProject | apply usesOnly_bind
    | apply usesOnly_zodParse | apply usesOnly_ret | apply usesOnly_throw
    | apply usesOnly_storage | exact I | intros [] | intros ? ].

(** No handler of the route layer reaches [storage.updateApiEndpoint],
    [storage.deleteApiEndpoint] or [storage.upsertUser]. *)
Lemma handlers_use_routed_storage (sch : Schemas) (m : Method) (p : string)
    (h : Request → ServerM Response) (req : Request) :
  handlerOf sch m p = Some h → usesOnly routed (h req).
Proof.
  intros Hh. destruct m; simpl in Hh;
    repeat match type of Hh with
    | (if String.eqb p ?q then _ else _) = _ => destruct (String.eqb p q)
    end; try discriminate; injection Hh as <-;
    unfold Routes.authUser, Routes.listProjects, Routes.readProject, Routes.postProject,
      Routes.putProject, Routes.removeProject, Routes.listEndpoints, Routes.postEndpoint,
      getUser, getUserProjects, createProject, updateProject, deleteProject,
      getProjectEndpoints, createApiEndpoint, respond;
    uses_only.
Qed.

(* ===================================================================== *)
(** * Properties of the AI facade *)
(* ===================================================================== *)

Section BuildFromPromptFacts.

Variable JSON_parse : string → option JsValue.

Lemma buildFromPrompt_run (userPrompt : string) (ai : nat → GenRequest → Settled)
    (issued : list GenRequest) :
  buildFromPrompt JSON_parse userPrompt ai issued =
    (match ai (length issued) (siteRequest userPrompt) with
     | Rejected => Throw siteFailure
     | Fulfilled text =>
         match JSON_parse (textOr text "{}") with
         | None | Some JNull => Throw siteFailure
         | Some (JObject o) =>
             Return {| title := orElse (o !! "title") (JString "Generated Website");
                       description := orElse (o !! "description") (JString "Generated using AI");
                       components := orElse (o !! "components") (JArray []);
                       htmlCode := orElse (o !! "htmlCode") (htmlCode defaultSite);
                       cssCode := orElse (o !! "cssCode") (JString "/* Generated styles */");
                       jsCode := orElse (o !! "jsCode") (JString "// Generated JavaScript") |}
         | Some _ => Return defaultSite
         end
     end,
     issued ++ [siteRequest userPrompt]).
Proof.
  unfold buildFromPrompt, tryCatch, bind, generateContent, siteRequest. simpl.
  destruct (ai _ _) as [|text]; simpl; [done|].
  unfold jsonParse. destruct (JSON_parse _) as [[]|]; done.
Qed.

(** C7.  The response of the model is only parsed as JSON.  A missing or
    empty text is parsed as [{}] and gives the six defaults; of a parsed
    object, each field that is missing is replaced by its default and each
    field that is there and truthy is returned as it is, whatever its type; a
    text that is there and is not JSON makes the function throw "Failed to
    generate website from prompt". *)
Theorem buildFromPrompt_best_effort (userPrompt : string)
    (ai : nat → GenRequest → Settled) (issued : list GenRequest) (text : option string) :
  JSON_parse "{}" = Some (JObject ∅) →
  ai (length issued) (siteRequest userPrompt) = Fulfilled text →
  let outcome := (buildFromPrompt JSON_parse userPrompt ai issued).1 in
  (text = None ∨ text = Some "" →
     textOr text "{}" = "{}" ∧ outcome = Return defaultSite)
  ∧ (∀ o : JsObject,
       JSON_parse (textOr text "{}") = Some (JObject o) →
       ∃ site : Site,
         outcome = Return site
         ∧ ∀ (name : string) (get : Site → JsValue) (default : JsValue),
             (name, get, default) ∈ siteFields →
             (o !! name = None → get site = default)
             ∧ (∀ v : JsValue, o !! name = Some v → truthy v = true → get site = v))
  ∧ (∀ t : string,
       text = Some t → t ≠ "" → JSON_parse t = None →
       outcome = Throw (Error "Failed to generate website from prompt")).
Proof.
  intros Hempty Hai outcome. subst outcome.
  rewrite buildFromPrompt_run, Hai. simpl. split; [|split].
  - intros Htext.
    assert (Hor : textOr text "{}" = "{}") by (by destruct Htext as [->| ->]).
    by rewrite Hor, Hempty.
  - intros o Ho. rewrite Ho. eexists. split; [done|].
    intros name get default Hfield. unfold siteFields in Hfield.
    rewrite !elem_of_cons, elem_of_nil in Hfield.
    destruct Hfield as [H|[H|[H|[H|[H|[H|[]]]]]]]; injection H as -> -> ->; simpl;
      (split; [by intros ->|intros v -> Hv; simpl; by rewrite Hv]).
  - intros t -> Ht Hparse.
    assert (Hor : textOr (Some t) "{}" = t).
    { simpl. destruct (String.eqb_spec t ""); [done|done]. }
    by rewrite Hor, Hparse.
Qed.

End BuildFromPromptFacts.

Example buildFromPrompt_sample :
  (buildFromPrompt PlainJson.JSON_parse "a shop" (Sample.answering (Some sampleResponse)) []).1
  = Return {| title := JString "Shop";
              description := JString "Generated using AI";
              components := JArray [];
              htmlCode := htmlCode defaultSite;
              cssCode := JNum 42;
              jsCode := JString "// Generated JavaScript" |}
  ∧ (buildFromPrompt PlainJson.JSON_parse "a shop" (Sample.answering None) []).1
    = Return defaultSite
  ∧ (buildFromPrompt PlainJson.JSON_parse "a shop" (Sample.answering (Some "Sorry, no.")) []).1
    = Throw (Error "Failed to generate website from prompt")
  ∧ (buildFromPrompt PlainJson.JSON_parse "a shop" (Sample.answering (Some "null")) []).1
    = Throw (Error "Failed to generate website from prompt")
  ∧ (buildFromPrompt PlainJson.JSON_parse "a shop" Sample.failing []).1
    = Throw (Error "Failed to generate website from prompt").
Proof. vm_compute. repeat split. Qed.

Lemma buildFromPrompt_best_effort_witness :
  PlainJson.JSON_parse "{}" = Some (JObject ∅)
  ∧ Sample.answering (Some sampleResponse) 0%nat (siteRequest "a shop")
    = Fulfilled (Some sampleResponse)
  ∧ ((Some sampleResponse = None ∨ Some sampleResponse = Some "" →
        textOr (Some sampleResponse) "{}" = "{}"
        ∧ (buildFromPrompt PlainJson.JSON_parse "a shop"
             (Sample.answering (Some sampleResponse)) []).1 = Return defaultSite)
     ∧ (∀ o : JsObject,
          PlainJson.JSON_parse (textOr (Some sampleResponse) "{}") = Some (JObject o) →
          ∃ site : Site,
            (buildFromPrompt PlainJson.JSON_parse "a shop"
               (Sample.answering (Some sampleResponse)) []).1 = Return site
            ∧ ∀ (name : string) (get : Site → JsValue) (default : JsValue),
                (name, get, default) ∈ siteFields →
                (o !! name = None → get site = default)
                ∧ (∀ v : JsValue, o !! name = Some v → truthy v = true → get site = v))
     ∧ (∀ t : string,
          Some sampleResponse = Some t → t ≠ "" → PlainJson.JSON_parse t = None →
          (buildFromPrompt PlainJson.JSON_parse "a shop"
             (Sample.answering (Some sampleResponse)) []).1
          = Throw (Error "Failed to generate website from prompt"))).
Proof.
  split; [reflexivity|]. split; [reflexivity|].
  exact (buildFromPrompt_best_effort PlainJson.JSON_parse "a shop"
           (Sample.answering (Some sampleResponse)) [] (Some sampleResponse)
           eq_refl eq_refl).
Defined.

(** ** C8 *)

(** C8.  Whatever the model does, [generateReactComponent] and
    [optimizeCode] issue exactly one request and [generateBackendCode]
    exactly three, for the routes, the models and the middleware prompt, in
    this order: a failed request is followed by no other. *)
Theorem facade_never_retries (ai : nat → GenRequest → Settled) (issued : list GenRequest) :
  (∀ componentType framework stylePreferences : string,
     (generateReactComponent componentType framework stylePreferences ai issued).2
     = issued ++ [flash (componentPrompt componentType framework stylePreferences)])
  ∧ (∀ code type : string,
       (optimizeCode code type ai issued).2
       = issued ++ [ {| model := "gemini-2.5-pro"; responseMimeType := None;
                        contents := optimizePrompt code type |} ])
  ∧ (∀ (database framework : string) (features : list (string * bool)),
       (generateBackendCode database framework features ai issued).2
       = issued ++ [ flash (routesPrompt database framework features);
                     flash (modelsPrompt database features);
                     flash (middlewarePrompt framework features) ]).
Proof.
  split; [|split].
  - intros componentType framework stylePreferences.
    unfold generateReactComponent, tryCatch, bind, generateContent, flash. simpl.
    by destruct (ai _ _).
  - intros code type.
    unfold optimizeCode, tryCatch, bind, generateContent. simpl.
    by destruct (ai _ _).
  - intros database framework features.
    unfold generateBackendCode, tryCatch, bind, generateContent. simpl.
    rewrite <- !app_assoc. simpl.
    by destruct (ai _ _) as [|?], (ai _ _) as [|?], (ai _ _) as [|?].
Qed.

Example featuresText_sample :
  featuresText [("userAuth", true); ("crudOps", false); ("fileUpload", true)]
  = "userAuth, fileUpload".
Proof. reflexivity. Qed.

(** With a model that rejects everything: one request, and three. *)
Example failing_model_requests :
  length (generateReactComponent "navbar" "React" "dark" Sample.failing []).2 = 1%nat
  ∧ (generateReactComponent "navbar" "React" "dark" Sample.failing []).1
    = Throw (Error "Failed to generate component with AI")
  ∧ length (generateBackendCode "PostgreSQL" "Express"
              [("userAuth", true); ("crudOps", false)] Sample.failing []).2 = 3%nat
  ∧ (generateBackendCode "PostgreSQL" "Express"
       [("userAuth", true); ("crudOps", false)] Sample.failing []).1
    = Throw (Error "Failed to generate backend code with AI")
  ∧ length (optimizeCode "let x = 1" "component" Sample.failing []).2 = 1%nat.
Proof. vm_compute. repeat split. Qed.

(** ** C9 *)

(** C9.  [optimizeCode] always returns: the code it was given when the
    request is rejected or the response has no text or an empty one, and the
    text of the response otherwise. *)
Theorem optimizeCode_total (code type : string) (ai : nat → GenRequest → Settled)
    (issued : list GenRequest) :
  let request := {| model := "gemini-2.5-pro"; responseMimeType := None;
                    contents := optimizePrompt code type |} in
  let outcome := (optimizeCode code type ai issued).1 in
  (∃ result : string, outcome = Return result)
  ∧ match ai (length issued) request with
    | Rejected | Fulfilled None | Fulfilled (Some EmptyString) => outcome = Return code
    | Fulfilled (Some text) => outcome = Return text
    end.
Proof.
  intros request outcome. subst request outcome.
  unfold optimizeCode, tryCatch, bind, generateContent. simpl.
  destruct (ai _ _) as [|[[|c text]|]]; simpl; eauto.
Qed.

Example optimizeCode_sample :
  (optimizeCode "let x = 1" "component" Sample.failing []).1 = Return "let x = 1"
  ∧ (optimizeCode "let x = 1" "component" (Sample.answering None) []).1 = Return "let x = 1"
  ∧ (optimizeCode "let x = 1" "component" (Sample.answering (Some "")) []).1 = Return "let x = 1"
  ∧ (optimizeCode "let x = 1" "component" (Sample.answering (Some "const x = 1")) []).1
    = Return "const x = 1".
Proof. vm_compute. repeat split. Qed.

(** ** Concrete runs of the storage facade *)

Example getUserProjects_sample :
  Storage.getUserProjects "alice" Sample.store = [Sample.aliceSecondProject; Sample.aliceProject]
  ∧ Storage.getUserProjects "bob" Sample.store = [Sample.bobProject]
  ∧ Storage.getUserProjects "carol" Sample.store = [].
Proof. vm_compute. repeat split. Qed.

(* ===================================================================== *)
(** * Further properties of the storage facade *)
(* ===================================================================== *)

Section MoreStorageFacts.

Implicit Types (d : Db) (r : Row) (rows : list Row) (col s id : string).

Lemma selectWhere_app col s rows1 rows2 :
  selectWhere col s (rows1 ++ rows2) = selectWhere col s rows1 ++ selectWhere col s rows2.
Proof. apply filter_app. Qed.

Lemma selectWhere_nil_iff col s rows :
  selectWhere col s rows = [] ↔ ∀ r, r ∈ rows → colEq col s r = false.
Proof.
  unfold selectWhere. induction rows as [|r0 rows IH].
  - split; [|done]. intros _ r Hr. by apply elem_of_nil in Hr.
  - rewrite filter_cons. destruct (colEq col s r0) eqn:Hr0.
    + rewrite decide_True by done. split; [done|].
      intros H. specialize (H r0 (list_elem_of_here _ _)). congruence.
    + rewrite decide_False by done. rewrite IH. split.
      * intros H r Hr. apply elem_of_cons in Hr as [->|Hr]; [done|by apply H].
      * intros H r Hr. apply H. by apply list_elem_of_further.
Qed.

Lemma head_selectWhere_None col s rows :
  head (selectWhere col s rows) = None ↔ selectWhere col s rows = [].
Proof. by destruct (selectWhere col s rows). Qed.

Lemma colEq_other col s s' r : colEq col s r = true → s' ≠ s → colEq col s' r = false.
Proof.
  intros Hs Hne. apply colEq_spec in Hs.
  destruct (colEq col s' r) eqn:Hs'; [|done].
  apply colEq_spec in Hs'. congruence.
Qed.

Lemma selectWhere_deleteWhere_same col s rows : selectWhere col s (deleteWhere col s rows) = [].
Proof.
  apply selectWhere_nil_iff. intros r Hr. unfold deleteWhere in Hr.
  by apply list_elem_of_filter in Hr as [Hr _].
Qed.

Lemma selectWhere_deleteWhere_other col s s' rows :
  s' ≠ s → selectWhere col s' (deleteWhere col s rows) = selectWhere col s' rows.
Proof.
  intros Hne. unfold selectWhere, deleteWhere.
  induction rows as [|r rows IH]; [done|].
  rewrite !filter_cons. destruct (colEq col s r) eqn:Hs.
  - rewrite decide_False by done.
    rewrite (colEq_other col s s' r Hs Hne), decide_False by done. done.
  - rewrite decide_True by done. rewrite filter_cons, IH. done.
Qed.

Lemma updateWhere_absent col s (values : Row) rows :
  selectWhere col s rows = [] → updateWhere col s values rows = rows.
Proof.
  rewrite selectWhere_nil_iff. intros Hnone. unfold updateWhere.
  induction rows as [|r rows IH]; [done|]. simpl.
  rewrite (Hnone r) by apply list_elem_of_here.
  f_equal. apply IH. intros r' Hr'. apply Hnone. by apply list_elem_of_further.
Qed.

Lemma deleteWhere_absent col s rows :
  selectWhere col s rows = [] → deleteWhere col s rows = rows.
Proof.
  rewrite selectWhere_nil_iff. intros Hnone. unfold deleteWhere.
  induction rows as [|r rows IH]; [done|].
  rewrite filter_cons, decide_True by (apply Hnone, list_elem_of_here).
  f_equal. apply IH. intros r' Hr'. apply Hnone. by apply list_elem_of_further.
Qed.

Lemma setTable_id (t : Table) d : setTable t (table t d) d = d.
Proof. by destruct t, d. Qed.

(** Rows that keep the value of [col] under [values] are selected after the
    update exactly when they were before. *)
Lemma selectWhere_updateWhere col s s' (values : Row) rows :
  (∀ r, colEq col s r = true → (values ∪ r) !! col = r !! col) →
  selectWhere col s' (updateWhere col s values rows)
  = (λ r, if colEq col s r then values ∪ r else r) <$> selectWhere col s' rows.
Proof.
  intros Hkeep. unfold selectWhere, updateWhere.
  induction rows as [|r rows IH]; [done|]. simpl.
  assert (Hsame : colEq col s' (if colEq col s r then values ∪ r else r) = colEq col s' r).
  { destruct (colEq col s r) eqn:Hs; [|done]. unfold colEq. by rewrite Hkeep. }
  rewrite !filter_cons, Hsame. case_decide; simpl; by rewrite IH.
Qed.

End MoreStorageFacts.

(** ** Insert and look up *)

(** X1.  A project created under an id that is not stored yet is what
    [getProject] then finds under that id, the created row carries every
    column the caller gave, and the lookups of the other ids are as before. *)
Theorem createProject_then_getProject (generated project : Row) (id : string) (d : Db) :
  inserted generated project !! "id" = Some (JString id) →
  Storage.getProject id d = None →
  let created := (Storage.createProject generated project d).1 in
  let d' := (Storage.createProject generated project d).2 in
  created = Some (inserted generated project)
  ∧ Storage.getProject id d' = created
  ∧ (∀ (k : string) (v : JsValue),
       project !! k = Some v → inserted generated project !! k = Some v)
  ∧ (∀ other : string, other ≠ id → Storage.getProject other d' = Storage.getProject other d).
Proof.
  intros Hid Habsent created d'. subst created d'. simpl.
  unfold Storage.getProject in *. simpl.
  apply head_selectWhere_None in Habsent.
  assert (Hrow : colEq "id" id (inserted generated project) = true) by by apply colEq_spec.
  split; [done|]. split; [|split].
  - rewrite selectWhere_app, Habsent. simpl.
    unfold selectWhere. by rewrite filter_cons, decide_True.
  - intros k v Hk. by apply lookup_union_Some_l.
  - intros other Hne. rewrite selectWhere_app.
    assert (Hnot : selectWhere "id" other [inserted generated project] = []).
    { unfold selectWhere. rewrite filter_cons, decide_False; [done|].
      by rewrite (colEq_other "id" id other _ Hrow Hne). }
    by rewrite Hnot, app_nil_r.
Qed.

Lemma createProject_then_getProject_witness :
  inserted (generated Sample.env) {[ "title" := JString "Store" ]} !! "id"
  = Some (JString "fresh")
  ∧ Storage.getProject "fresh" Sample.store = None
  ∧ Storage.getProject "fresh"
      (Storage.createProject (generated Sample.env) {[ "title" := JString "Store" ]}
         Sample.store).2
    = Some (inserted (generated Sample.env) {[ "title" := JString "Store" ]}).
Proof.
  assert (Hid : inserted (generated Sample.env) {[ "title" := JString "Store" ]} !! "id"
                = Some (JString "fresh")) by reflexivity.
  assert (Habsent : Storage.getProject "fresh" Sample.store = None) by reflexivity.
  split; [exact Hid|]. split; [exact Habsent|].
  pose proof (createProject_then_getProject (generated Sample.env)
                {[ "title" := JString "Store" ]} "fresh" Sample.store Hid Habsent) as H.
  simpl in H. exact (proj1 (proj2 H)).
Defined.

(** ** Delete and look up *)

(** X2.  After [deleteProject id] no project is found under [id], the
    lookups of the other ids are as before, and every user's list is the old
    one without the rows of that id. *)
Theorem deleteProject_then_getProject (id : string) (d : Db) :
  Storage.getProject id (Storage.deleteProject id d) = None
  ∧ (∀ other : string,
       other ≠ id →
       Storage.getProject other (Storage.deleteProject id d) = Storage.getProject other d)
  ∧ (∀ userId : string,
       Storage.getUserProjects userId (Storage.deleteProject id d)
       ≡ₚ filter (λ r : Row, colEq "id" id r = false) (Storage.getUserProjects userId d)).
Proof.
  unfold Storage.getProject, Storage.getUserProjects, Storage.deleteProject. simpl.
  split; [|split].
  - by rewrite selectWhere_deleteWhere_same.
  - intros other Hne. by rewrite selectWhere_deleteWhere_other.
  - intros userId. rewrite !merge_sort_Permutation.
    unfold selectWhere, deleteWhere.
    induction (projects d) as [|r rows IH]; [done|].
    rewrite !filter_cons.
    destruct (decide (colEq "id" id r = false)), (decide (colEq "userId" userId r = true));
      rewrite ?filter_cons, ?decide_True, ?decide_False by done; by rewrite ?IH.
Qed.

(** ** An id that is not stored *)

(** X3.  Updating or deleting under an id no row has changes nothing:
    [updateProject] and [updateApiEndpoint] resolve to [undefined] and leave
    the datastore as it was, and so do [deleteProject] and
    [deleteApiEndpoint]. *)
Theorem absent_id_changes_nothing (now : Z) (id : string) (updates : Row) (d : Db) :
  (Storage.getProject id d = None →
     Storage.updateProject now id updates d = (None, d)
     ∧ Storage.deleteProject id d = d)
  ∧ (selectWhere "id" id (apiEndpoints d) = [] →
       Storage.updateApiEndpoint now id updates d = (None, d)
       ∧ Storage.deleteApiEndpoint id d = d).
Proof.
  split.
  - intros Habsent. apply head_selectWhere_None in Habsent.
    unfold Storage.updateProject, Storage.deleteProject, updated.
    rewrite updateWhere_absent, deleteWhere_absent, Habsent by done.
    by rewrite (setTable_id Projects).
  - intros Habsent.
    unfold Storage.updateApiEndpoint, Storage.deleteApiEndpoint, updated.
    rewrite updateWhere_absent, deleteWhere_absent, Habsent by done.
    by rewrite (setTable_id ApiEndpoints).
Qed.

Example absent_id_sample :
  Storage.updateProject 5 "nope" {[ "title" := JString "x" ]} Sample.store = (None, Sample.store)
  ∧ Storage.deleteProject "nope" Sample.store = Sample.store
  ∧ Storage.deleteApiEndpoint "p1" Sample.store = Sample.store.
Proof. vm_compute. repeat split. Qed.

(** ** Update and look up *)

Lemma stamped_lookup (now : Z) (u r : Row) (k : string) :
  k ≠ "updatedAt" →
  (<["updatedAt" := JDate now]> u ∪ r) !! k = match u !! k with Some v => Some v | None => r !! k end.
Proof.
  intros Hk. rewrite lookup_union, lookup_insert_ne by done.
  by destruct (u !! k), (r !! k).
Qed.

(** X4.  [updateProject] on a stored id resolves to the stored row with the
    updates written over it: [updatedAt] is the time of the call, a column
    the updates name holds the new value and every other column its old one.
    The number of projects is unchanged, and when the updates do not name
    [id] the row is what [getProject] finds afterwards, the other lookups
    being as before. *)
Theorem updateProject_stored (now : Z) (id : string) (updates r : Row) (d : Db) :
  Storage.getProject id d = Some r →
  let d' := (Storage.updateProject now id updates d).2 in
  ∃ r' : Row,
    (Storage.updateProject now id updates d).1 = Some r'
    ∧ r' !! "updatedAt" = Some (JDate now)
    ∧ (∀ (k : string) (v : JsValue),
         k ≠ "updatedAt" → updates !! k = Some v → r' !! k = Some v)
    ∧ (∀ k : string, k ≠ "updatedAt" → updates !! k = None → r' !! k = r !! k)
    ∧ length (projects d') = length (projects d)
    ∧ (updates !! "id" = None →
         Storage.getProject id d' = Some r'
         ∧ ∀ other : string,
             other ≠ id → Storage.getProject other d' = Storage.getProject other d).
Proof.
  intros Hget d'. subst d'. unfold Storage.getProject, Storage.updateProject in *. simpl.
  unfold updated. destruct (selectWhere "id" id (projects d)) as [|r0 rest] eqn:Hsel; [done|].
  injection Hget as ->. simpl. eexists. split; [done|].
  split; [by rewrite lookup_union, lookup_insert_eq; destruct (r !! "updatedAt")|].
  split; [intros k v Hk Hu; by rewrite stamped_lookup, Hu|].
  split; [intros k Hk Hu; by rewrite stamped_lookup, Hu|].
  split; [unfold updateWhere; by rewrite length_map|].
  intros Hnoid.
  assert (Hkeep : ∀ r1 : Row, colEq "id" id r1 = true →
            (<["updatedAt" := JDate now]> updates ∪ r1) !! "id" = r1 !! "id").
  { intros r1 _. by rewrite stamped_lookup, Hnoid. }
  split.
  - rewrite (selectWhere_updateWhere "id" id id _ _ Hkeep), Hsel. simpl.
    assert (Hr : colEq "id" id r = true).
    { assert (Hin : r ∈ selectWhere "id" id (projects d)) by (rewrite Hsel; apply list_elem_of_here).
      apply elem_of_selectWhere in Hin as [_ Hin]. by apply colEq_spec. }
    by rewrite Hr.
  - intros other Hne.
    rewrite (selectWhere_updateWhere "id" id other _ _ Hkeep).
    destruct (selectWhere "id" other (projects d)) as [|r1 rest1] eqn:Hother; [done|]. simpl.
    assert (Hr1 : colEq "id" other r1 = true).
    { assert (Hin : r1 ∈ selectWhere "id" other (projects d))
        by (rewrite Hother; apply list_elem_of_here).
      apply elem_of_selectWhere in Hin as [_ Hin]. by apply colEq_spec. }
    by rewrite (colEq_other "id" other id r1 Hr1).
Qed.

Lemma updateProject_stored_witness :
  Storage.getProject "p1" Sample.store = Some Sample.aliceProject
  ∧ ∃ r' : Row,
      (Storage.updateProject 7 "p1" {[ "title" := JString "Store" ]} Sample.store).1 = Some r'
      ∧ r' !! "updatedAt" = Some (JDate 7)
      ∧ r' !! "title" = Some (JString "Store")
      ∧ r' !! "userId" = Some (JString "alice").
Proof.
  assert (Hget : Storage.getProject "p1" Sample.store = Some Sample.aliceProject)
    by reflexivity.
  split; [exact Hget|].
  destruct (updateProject_stored 7 "p1" {[ "title" := JString "Store" ]}
              Sample.aliceProject Sample.store Hget)
    as (r' & Hres & Hstamp & Hnew & Hold & _).
  exists r'. split; [exact Hres|]. split; [exact Hstamp|]. split.
  - apply Hnew; [discriminate|reflexivity].
  - rewrite Hold; [reflexivity|discriminate|reflexivity].
Defined.

(** ** Upsert *)

Lemma elem_of_idsOf (id : string) (rows : list Row) :
  id ∈ idsOf rows ↔ selectWhere "id" id rows ≠ [].
Proof.
  unfold idsOf. rewrite list_elem_of_omap. split.
  - intros (r & Hr & Hid) Hnone.
    rewrite selectWhere_nil_iff in Hnone. specialize (Hnone r Hr).
    unfold colEq, strictEqString in Hnone.
    destruct (r !! "id") as [[]|]; try done. injection Hid as ->.
    by rewrite String.eqb_refl in Hnone.
  - intros Hsome. destruct (selectWhere "id" id rows) as [|r rest] eqn:Hsel; [done|].
    assert (Hin : r ∈ selectWhere "id" id rows) by (rewrite Hsel; apply list_elem_of_here).
    apply elem_of_selectWhere in Hin as [Hin Hid]. exists r. split; [done|]. by rewrite Hid.
Qed.

Lemma idsOf_updateWhere (id : string) (values : Row) (rows : list Row) :
  (∀ r : Row, colEq "id" id r = true → (values ∪ r) !! "id" = r !! "id") →
  idsOf (updateWhere "id" id values rows) = idsOf rows.
Proof.
  intros Hkeep. unfold idsOf, updateWhere.
  induction rows as [|r rows IH]; [done|]. csimpl. rewrite IH.
  destruct (colEq "id" id r) eqn:Hr; [|done]. by rewrite Hkeep.
Qed.

(** In the conflict branch of [upsertUser] the written values leave the id
    of the row they are written over as it is. *)
Lemma upsert_values_keep_id (now : Z) (generated userData : Row) (id : string) (r : Row) :
  inserted generated userData !! "id" = Some (JString id) →
  colEq "id" id r = true →
  (<["updatedAt" := JDate now]> userData ∪ r) !! "id" = r !! "id".
Proof.
  intros Hid Hr. apply colEq_spec in Hr. rewrite stamped_lookup by done.
  destruct (userData !! "id") as [v|] eqn:Hv; [|done].
  unfold inserted in Hid. rewrite (lookup_union_Some_l _ _ _ _ Hv) in Hid. congruence.
Qed.

(** X5.  [upsertUser] never stores a second user under an id: a [users]
    table without duplicate ids has none after the call either. *)
Theorem upsertUser_keeps_ids_unique (now : Z) (generated userData : Row) (d : Db) :
  uniqueIds (users d) →
  uniqueIds (users (Storage.upsertUser now generated userData d).2).
Proof.
  unfold uniqueIds, Storage.upsertUser. intros Hunique.
  assert (Hplain : ∀ row : Row,
            (∀ id, row !! "id" ≠ Some (JString id)) →
            NoDup (idsOf (users d ++ [row]))).
  { intros row Hrow. unfold idsOf. rewrite omap_app. simpl.
    destruct (row !! "id") as [[]|] eqn:Hid; rewrite ?app_nil_r; try done.
    by destruct (Hrow s). }
  destruct (inserted generated userData !! "id") as [v|] eqn:Hid; simpl;
    [|apply Hplain; congruence].
  destruct v; simpl; try (apply Hplain; congruence).
  destruct (selectWhere "id" s (users d)) as [|r0 rest] eqn:Hsel; simpl.
  - unfold idsOf. rewrite omap_app. simpl. rewrite Hid.
    apply NoDup_app. split; [done|]. split; [|apply NoDup_singleton].
    intros id Hin Hnew. apply list_elem_of_singleton in Hnew as ->.
    apply elem_of_idsOf in Hin. done.
  - rewrite idsOf_updateWhere; [done|].
    intros r Hr. by apply (upsert_values_keep_id now generated userData s).
Qed.

Lemma upsertUser_keeps_ids_unique_witness :
  uniqueIds (users Sample.store)
  ∧ uniqueIds (users (Storage.upsertUser 9 (generated Sample.env)
                        {[ "id" := JString "alice"; "email" := JString "a@example.org" ]}
                        Sample.store).2).
Proof.
  assert (Hunique : uniqueIds (users Sample.store)).
  { unfold uniqueIds. vm_compute. apply NoDup_cons. split; [|apply NoDup_singleton].
    rewrite list_elem_of_singleton. discriminate. }
  split; [exact Hunique|].
  exact (upsertUser_keeps_ids_unique 9 (generated Sample.env)
           {[ "id" := JString "alice"; "email" := JString "a@example.org" ]}
           Sample.store Hunique).
Defined.

(** X6.  After [upsertUser] the user is found under the id of the upserted
    row: [getUser] gives the row the call resolved to, which carries every
    column of [userData]; when the id was stored already, the columns
    [userData] does not name keep their stored value and [updatedAt] is the
    time of the call. *)
Theorem upsertUser_then_getUser (now : Z) (generated userData : Row) (id : string) (d : Db) :
  inserted generated userData !! "id" = Some (JString id) →
  let d' := (Storage.upsertUser now generated userData d).2 in
  ∃ r : Row,
    (Storage.upsertUser now generated userData d).1 = Some r
    ∧ Storage.getUser id d' = Some r
    ∧ (∀ (k : string) (v : JsValue), userData !! k = Some v → k ≠ "updatedAt" → r !! k = Some v)
    ∧ (∀ old : Row,
         Storage.getUser id d = Some old →
         r !! "updatedAt" = Some (JDate now)
         ∧ length (users d') = length (users d)
         ∧ ∀ k : string, userData !! k = None → k ≠ "updatedAt" → r !! k = old !! k)
    ∧ (Storage.getUser id d = None → users d' = users d ++ [r]).
Proof.
  intros Hid d'. subst d'. unfold Storage.upsertUser, Storage.getUser. rewrite Hid.
  destruct (selectWhere "id" id (users d)) as [|r0 rest] eqn:Hsel; simpl.
  - exists (inserted generated userData). split; [done|]. split; [|split; [|split]].
    + rewrite selectWhere_app, Hsel. simpl. unfold selectWhere.
      rewrite filter_cons, decide_True; [done|]. by apply colEq_spec.
    + intros k v Hk _. by apply lookup_union_Some_l.
    + done.
    + done.
  - assert (Hr0 : colEq "id" id r0 = true).
    { assert (Hin : r0 ∈ selectWhere "id" id (users d)) by (rewrite Hsel; apply list_elem_of_here).
      apply elem_of_selectWhere in Hin as [_ Hin]. by apply colEq_spec. }
    exists (<["updatedAt" := JDate now]> userData ∪ r0).
    split; [unfold updated; by rewrite Hsel|]. split; [|split; [|split]].
    + rewrite (selectWhere_updateWhere "id" id id); [by rewrite Hsel; simpl; rewrite Hr0|].
      intros r Hr. by apply (upsert_values_keep_id now generated userData id).
    + intros k v Hk Hne. by rewrite stamped_lookup, Hk.
    + intros old [= <-]. split; [|split].
      * rewrite lookup_union, lookup_insert_eq. by destruct (r0 !! "updatedAt").
      * unfold updateWhere. by rewrite length_map.
      * intros k Hk Hne. by rewrite stamped_lookup, Hk.
    + done.
Qed.

Lemma upsertUser_then_getUser_witness :
  inserted (generated Sample.env)
    {[ "id" := JString "carol"; "email" := JString "c@example.org" ]} !! "id"
  = Some (JString "carol")
  ∧ ∃ r : Row,
      Storage.getUser "carol"
        (Storage.upsertUser 9 (generated Sample.env)
           {[ "id" := JString "carol"; "email" := JString "c@example.org" ]} Sample.store).2
      = Some r
      ∧ r !! "email" = Some (JString "c@example.org").
Proof.
  assert (Hid : inserted (generated Sample.env)
                  {[ "id" := JString "carol"; "email" := JString "c@example.org" ]} !! "id"
                = Some (JString "carol")) by reflexivity.
  split; [exact Hid|].
  destruct (upsertUser_then_getUser 9 (generated Sample.env)
              {[ "id" := JString "carol"; "email" := JString "c@example.org" ]}
              "carol" Sample.store Hid) as (r & _ & Hget & Hcols & _).
  exists r. split; [exact Hget|]. apply Hcols; [reflexivity|discriminate].
Defined.

(** ** The endpoints of a project *)

(** X7.  [getProjectEndpoints projectId] returns exactly the stored
    endpoints whose [projectId] column holds [projectId], newest first by
    [createdAt]; an endpoint of another project is not in the result. *)
Theorem getProjectEndpoints_scoped_sorted (projectId : string) (d : Db) :
  let result := Storage.getProjectEndpoints projectId d in
  result ≡ₚ filter (λ r, colEq "projectId" projectId r = true) (apiEndpoints d)
  ∧ (∀ r : Row,
       r ∈ result ↔ r ∈ apiEndpoints d ∧ r !! "projectId" = Some (JString projectId))
  ∧ (∀ (i j : nat) (a b : Row) (ta tb : Z),
       (i < j)%nat → result !! i = Some a → result !! j = Some b →
       a !! "createdAt" = Some (JDate ta) → b !! "createdAt" = Some (JDate tb) →
       (tb ≤ ta)%Z)
  ∧ (∀ (r : Row) (other : string),
       r ∈ result → other ≠ projectId → r !! "projectId" ≠ Some (JString other)).
Proof.
  intros result. subst result. unfold Storage.getProjectEndpoints.
  pose proof (merge_sort_Permutation (descBy "createdAt")
                (selectWhere "projectId" projectId (apiEndpoints d))) as Hperm.
  pose proof (sorted_desc "createdAt"
                (selectWhere "projectId" projectId (apiEndpoints d))) as Hsorted.
  split; [exact Hperm|].
  split; [intros r; rewrite Hperm; apply elem_of_selectWhere|].
  split.
  - intros i j a b ta tb Hij Hi Hj Ha Hb.
    pose proof (StronglySorted_lookup _ _ _ _ _ _ Hsorted Hij Hi Hj) as Hab.
    unfold descBy, sortKey in Hab. by rewrite Ha, Hb in Hab.
  - intros r other Hr Hne Hother. rewrite Hperm in Hr.
    apply elem_of_selectWhere in Hr as [_ Hr]. congruence.
Qed.

(** X8.  An endpoint created for a project is listed for that project
    afterwards, next to the endpoints listed before; the lists of the other
    projects are as before. *)
Theorem createApiEndpoint_then_listed (generated endpoint : Row) (projectId : string) (d : Db) :
  inserted generated endpoint !! "projectId" = Some (JString projectId) →
  let d' := (Storage.createApiEndpoint generated endpoint d).2 in
  Storage.getProjectEndpoints projectId d'
  ≡ₚ inserted generated endpoint :: Storage.getProjectEndpoints projectId d
  ∧ (∀ other : string,
       other ≠ projectId →
       Storage.getProjectEndpoints other d' = Storage.getProjectEndpoints other d).
Proof.
  intros Hpid d'. subst d'. unfold Storage.getProjectEndpoints. simpl.
  assert (Hrow : colEq "projectId" projectId (inserted generated endpoint) = true)
    by by apply colEq_spec.
  split.
  - rewrite !merge_sort_Permutation, selectWhere_app.
    unfold selectWhere at 2. rewrite filter_cons, decide_True by done.
    rewrite filter_nil. by rewrite <- Permutation_cons_append.
  - intros other Hne. rewrite selectWhere_app.
    unfold selectWhere at 2. rewrite filter_cons, decide_False, filter_nil, app_nil_r; [done|].
    by rewrite (colEq_other "projectId" projectId other _ Hrow Hne).
Qed.

Lemma createApiEndpoint_then_listed_witness :
  inserted (generated Sample.env)
    {[ "projectId" := JString "p1"; "path" := JString "/cart" ]} !! "projectId"
  = Some (JString "p1")
  ∧ Storage.getProjectEndpoints "p1"
      (Storage.createApiEndpoint (generated Sample.env)
         {[ "projectId" := JString "p1"; "path" := JString "/cart" ]} Sample.store).2
    ≡ₚ inserted (generated Sample.env)
         {[ "projectId" := JString "p1"; "path" := JString "/cart" ]}
       :: Storage.getProjectEndpoints "p1" Sample.store.
Proof.
  assert (Hpid : inserted (generated Sample.env)
                   {[ "projectId" := JString "p1"; "path" := JString "/cart" ]} !! "projectId"
                 = Some (JString "p1")) by reflexivity.
  split; [exact Hpid|].
  exact (proj1 (createApiEndpoint_then_listed (generated Sample.env)
                  {[ "projectId" := JString "p1"; "path" := JString "/cart" ]}
                  "p1" Sample.store Hpid)).
Defined.

(* ===================================================================== *)
(** * Further properties of the route layer *)
(* ===================================================================== *)

#[local] Ltac unfold_handlers :=
  unfold Routes.authUser, Routes.listProjects, Routes.readProject, Routes.postProject,
    Routes.putProject, Routes.removeProject, Routes.listEndpoints, Routes.postEndpoint,
    withOwnedProject, getUser, getUserProjects, getProject, createProject, updateProject,
    deleteProject, getProjectEndpoints, createApiEndpoint, zodParse, respond,
    tryCatch, bind, storage, ret, throw.

#[local] Ltac crunch :=
  repeat (simpl;
    match goal with
    | |- context [dbFails ?e ?n] => destruct (dbFails e n) eqn:?
    | |- context [Storage.getProject ?i ?d] => destruct (Storage.getProject i d) eqn:?
    | |- context [strictNeString ?a ?b] => destruct (strictNeString a b) eqn:?
    | |- context [parse ?a ?b] => destruct (parse a b) eqn:?
    | |- context [parseShape ?a ?b] => destruct (parseShape a b) as [[|? ?] ?] eqn:?
    end).

(** The handler behind a method and path is one of the eight. *)
#[local] Ltac pick_handler Hh :=
  match type of Hh with
  | handlerOf _ ?m ?p = Some _ =>
      destruct m; simpl in Hh;
      repeat match type of Hh with
      | (if String.eqb p ?q then _ else _) = _ => destruct (String.eqb p q)
      end; try discriminate; injection Hh as <-
  end.

(** X9.  Every handler answers: no exception leaves it, and the status is
    one of 200, 201, 204, 400, 403, 404 and 500. *)
Theorem handlers_always_respond (sch : Schemas) (m : Method) (p : string)
    (h : Request → ServerM Response) (req : Request) (env : ServerEnv) (s : ServerState) :
  handlerOf sch m p = Some h →
  ∃ response : Response,
    (h req env s).1 = Return response
    ∧ status response ∈ [200; 201; 204; 400; 403; 404; 500]%nat.
Proof.
  intros Hh. pick_handler Hh; unfold_handlers; crunch;
    (eexists; split; [reflexivity|]; simpl; rewrite !elem_of_cons; tauto).
Qed.

Lemma handlers_always_respond_witness :
  handlerOf Sample.schemas DELETE "/api/projects/:id" = Some Routes.removeProject
  ∧ ∃ response : Response,
      (Routes.removeProject (Sample.request "p1" JNull) Sample.env Sample.start).1
      = Return response
      ∧ status response ∈ [200; 201; 204; 400; 403; 404; 500]%nat.
Proof.
  split; [reflexivity|].
  exact (handlers_always_respond Sample.schemas DELETE "/api/projects/:id"
           Routes.removeProject (Sample.request "p1" JNull) Sample.env Sample.start eq_refl).
Defined.

(** X10.  A request that is not answered 200, 201 or 204 leaves the
    datastore as it was. *)
Theorem unsuccessful_request_changes_nothing (sch : Schemas) (m : Method) (p : string)
    (h : Request → ServerM Response) (req : Request) (env : ServerEnv)
    (s s' : ServerState) (response : Response) :
  handlerOf sch m p = Some h →
  h req env s = (Return response, s') →
  succeeded (status response) = false →
  db s' = db s.
Proof.
  intros Hh. pick_handler Hh; unfold_handlers; crunch;
    intros [= <- <-]; simpl; done.
Qed.

Lemma unsuccessful_request_changes_nothing_witness :
  Routes.putProject Sample.schemas (Sample.request "p1" Sample.badBody) Sample.env Sample.start
  = (Return {| status := 400; payload := Invalid "Invalid project data" [IssueNotObject] |},
     {| db := Sample.store; calls := [CGetProject "p1"] |})
  ∧ db {| db := Sample.store; calls := [CGetProject "p1"] |} = db Sample.start.
Proof.
  assert (Hrun : Routes.putProject Sample.schemas (Sample.request "p1" Sample.badBody)
                   Sample.env Sample.start
                 = (Return {| status := 400;
                              payload := Invalid "Invalid project data" [IssueNotObject] |},
                    {| db := Sample.store; calls := [CGetProject "p1"] |}))
    by (vm_compute; reflexivity).
  split; [exact Hrun|].
  exact (unsuccessful_request_changes_nothing Sample.schemas PUT "/api/projects/:id"
           (Routes.putProject Sample.schemas) (Sample.request "p1" Sample.badBody)
           Sample.env Sample.start _ _ eq_refl Hrun eq_refl).
Defined.

(** X11.  The GET handlers only read: whatever they answer, the datastore
    is as it was. *)
Theorem get_handlers_read_only (sch : Schemas) (p : string)
    (h : Request → ServerM Response) (req : Request) (env : ServerEnv) (s : ServerState) :
  handlerOf sch GET p = Some h →
  db (h req env s).2 = db s.
Proof.
  intros Hh. simpl in Hh.
  repeat match type of Hh with
  | (if String.eqb p ?q then _ else _) = _ => destruct (String.eqb p q)
  end; try discriminate; injection Hh as <-;
  unfold_handlers; crunch; done.
Qed.

Lemma get_handlers_read_only_witness :
  handlerOf Sample.schemas GET "/api/projects" = Some Routes.listProjects
  ∧ db (Routes.listProjects (Sample.request "" JNull) Sample.env Sample.start).2 = Sample.store.
Proof.
  split; [reflexivity|].
  exact (get_handlers_read_only Sample.schemas "/api/projects" Routes.listProjects
           (Sample.request "" JNull) Sample.env Sample.start eq_refl).
Defined.

(** ** The ownership guard *)

Lemma strictNeString_false_inv (a : option JsValue) (u : string) :
  strictNeString a u = false → a = Some (JString u).
Proof.
  unfold strictNeString. intros Ha. apply strictEqString_spec.
  by destruct (strictEqString a u).
Qed.

(** A guarded handler whose [catch] only answers errors either found the
    project of the session user or answers an error and changes nothing. *)
Lemma guarded_result (req : Request) (continue : Row → ServerM Response)
    (handler : Exn → ServerM Response) (env : ServerEnv) (s s' : ServerState)
    (response : Response) :
  (∀ e env' s0, ∃ r, handler e env' s0 = (Return r, s0) ∧ succeeded (status r) = false) →
  tryCatch (withOwnedProject req continue) handler env s = (Return response, s') →
  (∃ project : Row,
     Storage.getProject (param req) (db s) = Some project
     ∧ project !! "userId" = Some (JString (sub req)))
  ∨ (succeeded (status response) = false ∧ db s' = db s).
Proof.
  intros Hhandler. unfold tryCatch. rewrite withOwnedProject_run.
  destruct (dbFails env (length (calls s))).
  { destruct (Hhandler DbError env (looked req s)) as (r & -> & Hr).
    intros [= <- <-]. by right. }
  destruct (Storage.getProject (param req) (db s)) as [project|]; [|intros [= <- <-]; by right].
  destruct (strictNeString (project !! "userId") (sub req)) eqn:Howner;
    [intros [= <- <-]; by right|].
  intros _. left. exists project. split; [done|]. by apply strictNeString_false_inv.
Qed.

(** X12.  On each of the five project-scoped routes, a project that is not
    stored is answered 404 "Project not found"; the lookup is the only
    storage call made and the datastore is as before. *)
Theorem missing_project_not_found (sch : Schemas) (m : Method) (p : string)
    (h : Request → ServerM Response) (req : Request) (env : ServerEnv) (s : ServerState) :
  (m, p) ∈ projectScoped →
  handlerOf sch m p = Some h →
  dbFails env (length (calls s)) = false →
  Storage.getProject (param req) (db s) = None →
  h req env s
  = (Return {| status := 404; payload := Message "Project not found" |},
     {| db := db s; calls := calls s ++ [CGetProject (param req)] |}).
Proof.
  intros Hroute Hh Hrun Hget.
  unfold projectScoped in Hroute. rewrite !elem_of_cons, elem_of_nil in Hroute.
  destruct Hroute as [H|[H|[H|[H|[H|[]]]]]]; injection H as -> ->;
    simpl in Hh; injection Hh as <-;
    unfold Routes.readProject, Routes.putProject, Routes.removeProject,
      Routes.listEndpoints, Routes.postEndpoint, tryCatch;
    by rewrite withOwnedProject_run, Hrun, Hget.
Qed.

Lemma missing_project_not_found_witness :
  Routes.listEndpoints (Sample.request "nope" JNull) Sample.env Sample.start
  = (Return {| status := 404; payload := Message "Project not found" |},
     {| db := Sample.store; calls := [CGetProject "nope"] |}).
Proof.
  apply (missing_project_not_found Sample.schemas GET "/api/projects/:projectId/endpoints"
           Routes.listEndpoints (Sample.request "nope" JNull) Sample.env Sample.start).
  - unfold projectScoped. repeat constructor.
  - reflexivity.
  - reflexivity.
  - reflexivity.
Defined.

(** X13.  Only the owner gets through: when a project-scoped request is
    answered 200, 201 or 204, or the datastore is changed by it, the project
    is stored and its [userId] is the session user's id. *)
Theorem success_implies_ownership (sch : Schemas) (m : Method) (p : string)
    (h : Request → ServerM Response) (req : Request) (env : ServerEnv)
    (s s' : ServerState) (response : Response) :
  (m, p) ∈ projectScoped →
  handlerOf sch m p = Some h →
  h req env s = (Return response, s') →
  succeeded (status response) = true ∨ db s' ≠ db s →
  ∃ project : Row,
    Storage.getProject (param req) (db s) = Some project
    ∧ project !! "userId" = Some (JString (sub req)).
Proof.
  intros Hroute Hh Hrun Hpassed.
  assert (Hguard : (∃ project : Row,
                      Storage.getProject (param req) (db s) = Some project
                      ∧ project !! "userId" = Some (JString (sub req)))
                   ∨ (succeeded (status response) = false ∧ db s' = db s)).
  { unfold projectScoped in Hroute. rewrite !elem_of_cons, elem_of_nil in Hroute.
    destruct Hroute as [H|[H|[H|[H|[H|[]]]]]]; injection H as -> ->;
      simpl in Hh; injection Hh as <-;
      unfold Routes.readProject, Routes.putProject, Routes.removeProject,
        Routes.listEndpoints, Routes.postEndpoint in Hrun;
      (eapply guarded_result; [|exact Hrun]);
      intros [] env' s0; eexists; split; reflexivity. }
  destruct Hguard as [Howned|[Hfailed Hsame]]; [done|].
  destruct Hpassed as [Hok|Hchanged]; [congruence|done].
Qed.

Lemma success_implies_ownership_witness :
  Routes.removeProject (Sample.request "p1" JNull) Sample.env Sample.start
  = (Return {| status := 204; payload := NoContent |},
     {| db := Storage.deleteProject "p1" Sample.store;
        calls := [CGetProject "p1"; CDeleteProject "p1"] |})
  ∧ ∃ project : Row,
      Storage.getProject "p1" Sample.store = Some project
      ∧ project !! "userId" = Some (JString "alice").
Proof.
  assert (Hrun : Routes.removeProject (Sample.request "p1" JNull) Sample.env Sample.start
                 = (Return {| status := 204; payload := NoContent |},
                    {| db := Storage.deleteProject "p1" Sample.store;
                       calls := [CGetProject "p1"; CDeleteProject "p1"] |}))
    by (vm_compute; reflexivity).
  split; [exact Hrun|].
  apply (success_implies_ownership Sample.schemas DELETE "/api/projects/:id"
           Routes.removeProject (Sample.request "p1" JNull) Sample.env Sample.start
           {| db := Storage.deleteProject "p1" Sample.store;
              calls := [CGetProject "p1"; CDeleteProject "p1"] |}
           {| status := 204; payload := NoContent |}).
  - unfold projectScoped. repeat constructor.
  - reflexivity.
  - exact Hrun.
  - left. reflexivity.
Defined.

Lemma withOwnedProject_owned (req : Request) (continue : Row → ServerM Response)
    (env : ServerEnv) (s : ServerState) (project : Row) :
  dbFails env (length (calls s)) = false →
  Storage.getProject (param req) (db s) = Some project →
  project !! "userId" = Some (JString (sub req)) →
  withOwnedProject req continue env s = continue project env (looked req s).
Proof.
  intros Hrun Hget Hown.
  by rewrite withOwnedProject_run, Hrun, Hget, (strictNeString_false _ _ Hown).
Qed.

Lemma getProject_Some (id : string) (d : Db) (project : Row) :
  Storage.getProject id d = Some project →
  project ∈ projects d ∧ project !! "id" = Some (JString id).
Proof.
  unfold Storage.getProject. intros Hhead.
  apply head_Some_elem_of in Hhead. by apply elem_of_selectWhere in Hhead.
Qed.

(** ** What the GET routes show *)

(** X14.  A 200 from the reading routes shows the session user's data
    only: GET /api/projects lists exactly the stored projects whose [userId]
    is the session user's id; GET /api/projects/:id shows a stored project
    with the id of the path and that [userId]; GET
    /api/projects/:projectId/endpoints lists exactly the stored endpoints of
    the project of the path, which belongs to the session user. *)
Theorem reads_show_own_data (req : Request) (env : ServerEnv) (s s' : ServerState)
    (response : Response) :
  status response = 200%nat →
  (Routes.listProjects req env s = (Return response, s') →
     ∃ l : list Row,
       payload response = JsonList l
       ∧ ∀ r : Row, r ∈ l ↔ r ∈ projects (db s) ∧ r !! "userId" = Some (JString (sub req)))
  ∧ (Routes.readProject req env s = (Return response, s') →
       ∃ project : Row,
         payload response = Json (Some project)
         ∧ project ∈ projects (db s)
         ∧ project !! "id" = Some (JString (param req))
         ∧ project !! "userId" = Some (JString (sub req)))
  ∧ (Routes.listEndpoints req env s = (Return response, s') →
       ∃ (project : Row) (l : list Row),
         payload response = JsonList l
         ∧ Storage.getProject (param req) (db s) = Some project
         ∧ project !! "userId" = Some (JString (sub req))
         ∧ ∀ r : Row,
             r ∈ l ↔ r ∈ apiEndpoints (db s) ∧ r !! "projectId" = Some (JString (param req))).
Proof.
  intros Hok. split; [|split].
  - unfold_handlers. simpl. destruct (dbFails env (length (calls s))); simpl.
    + intros [= <- <-]. done.
    + intros [= <- <-]. eexists. split; [done|]. intros r.
      unfold Storage.getUserProjects. rewrite merge_sort_Permutation.
      apply elem_of_selectWhere.
  - unfold Routes.readProject, tryCatch. rewrite withOwnedProject_run.
    destruct (dbFails env (length (calls s))); [intros [= <- <-]; done|].
    destruct (Storage.getProject (param req) (db s)) as [project|] eqn:Hget;
      [|intros [= <- <-]; done].
    destruct (strictNeString (project !! "userId") (sub req)) eqn:Howner;
      [intros [= <- <-]; done|].
    intros [= <- <-]. exists project. split; [done|].
    destruct (getProject_Some _ _ _ Hget) as [Hin Hid].
    split; [done|]. split; [done|]. by apply strictNeString_false_inv.
  - unfold Routes.listEndpoints, tryCatch. rewrite withOwnedProject_run.
    destruct (dbFails env (length (calls s))); [intros [= <- <-]; done|].
    destruct (Storage.getProject (param req) (db s)) as [project|] eqn:Hget;
      [|intros [= <- <-]; done].
    destruct (strictNeString (project !! "userId") (sub req)) eqn:Howner;
      [intros [= <- <-]; done|].
    unfold getProjectEndpoints, bind, storage, respond, ret. simpl.
    destruct (dbFails env _); simpl; [intros [= <- <-]; done|].
    intros [= <- <-]. exists project. eexists. split; [done|]. split; [done|].
    split; [by apply strictNeString_false_inv|]. intros r.
    unfold Storage.getProjectEndpoints. rewrite merge_sort_Permutation.
    apply elem_of_selectWhere.
Qed.

Lemma reads_show_own_data_witness :
  Routes.listProjects (Sample.request "" JNull) Sample.env Sample.start
  = (Return {| status := 200;
               payload := JsonList [Sample.aliceSecondProject; Sample.aliceProject] |},
     {| db := Sample.store; calls := [CGetUserProjects "alice"] |})
  ∧ ∃ l : list Row,
      JsonList [Sample.aliceSecondProject; Sample.aliceProject] = JsonList l
      ∧ ∀ r : Row,
          r ∈ l ↔ r ∈ projects Sample.store ∧ r !! "userId" = Some (JString "alice").
Proof.
  assert (Hrun : Routes.listProjects (Sample.request "" JNull) Sample.env Sample.start
                 = (Return {| status := 200;
                              payload := JsonList [Sample.aliceSecondProject;
                                                   Sample.aliceProject] |},
                    {| db := Sample.store; calls := [CGetUserProjects "alice"] |}))
    by (vm_compute; reflexivity).
  split; [exact Hrun|].
  exact (proj1 (reads_show_own_data (Sample.request "" JNull) Sample.env Sample.start
                  {| db := Sample.store; calls := [CGetUserProjects "alice"] |}
                  {| status := 200;
                     payload := JsonList [Sample.aliceSecondProject; Sample.aliceProject] |}
                  eq_refl) Hrun).
Defined.

(** ** Requests in sequence *)

Lemma removeProject_owned (req : Request) (env : ServerEnv) (s : ServerState) (project : Row) :
  dbUp env →
  Storage.getProject (param req) (db s) = Some project →
  project !! "userId" = Some (JString (sub req)) →
  Routes.removeProject req env s
  = (Return {| status := 204; payload := NoContent |},
     {| db := Storage.deleteProject (param req) (db s);
        calls := calls s ++ [CGetProject (param req); CDeleteProject (param req)] |}).
Proof.
  intros Hup Hget Hown. unfold Routes.removeProject, tryCatch.
  rewrite (withOwnedProject_owned _ _ _ _ project) by done.
  unfold deleteProject, bind, storage, respond, ret, looked. simpl.
  by rewrite Hup, <- app_assoc.
Qed.

(** X15.  The owner's DELETE is answered 204 and removes the project; the
    same request sent again is answered 404 and changes nothing more. *)
Theorem delete_then_delete (req : Request) (env : ServerEnv) (s : ServerState) (project : Row) :
  dbUp env →
  Storage.getProject (param req) (db s) = Some project →
  project !! "userId" = Some (JString (sub req)) →
  ∃ s1 s2 : ServerState,
    Routes.removeProject req env s = (Return {| status := 204; payload := NoContent |}, s1)
    ∧ db s1 = Storage.deleteProject (param req) (db s)
    ∧ Storage.getProject (param req) (db s1) = None
    ∧ Routes.removeProject req env s1
      = (Return {| status := 404; payload := Message "Project not found" |}, s2)
    ∧ db s2 = db s1.
Proof.
  intros Hup Hget Hown. eexists. eexists.
  split; [by apply (removeProject_owned _ _ _ project)|]. simpl.
  split; [done|].
  assert (Hgone : Storage.getProject (param req) (Storage.deleteProject (param req) (db s)) = None).
  { unfold Storage.getProject, Storage.deleteProject. simpl.
    by rewrite selectWhere_deleteWhere_same. }
  split; [done|].
  unfold Routes.removeProject, tryCatch. rewrite withOwnedProject_run, Hup. simpl.
  rewrite Hgone. done.
Qed.

Lemma dbUp_sample : dbUp Sample.env.
Proof. intros n. reflexivity. Defined.

Lemma delete_then_delete_witness :
  dbUp Sample.env
  ∧ Storage.getProject "p1" Sample.store = Some Sample.aliceProject
  ∧ ∃ s1 s2 : ServerState,
      Routes.removeProject (Sample.request "p1" JNull) Sample.env Sample.start
      = (Return {| status := 204; payload := NoContent |}, s1)
      ∧ db s1 = Storage.deleteProject "p1" Sample.store
      ∧ Storage.getProject "p1" (db s1) = None
      ∧ Routes.removeProject (Sample.request "p1" JNull) Sample.env s1
        = (Return {| status := 404; payload := Message "Project not found" |}, s2)
      ∧ db s2 = db s1.
Proof.
  split; [exact dbUp_sample|]. split; [reflexivity|].
  exact (delete_then_delete (Sample.request "p1" JNull) Sample.env Sample.start
           Sample.aliceProject dbUp_sample eq_refl eq_refl).
Defined.

Lemma getProject_after_update (now : Z) (id : string) (updates r : Row) (d : Db) :
  Storage.getProject id d = Some r →
  updates !! "id" = None →
  (Storage.updateProject now id updates d).1 = Some (<["updatedAt" := JDate now]> updates ∪ r)
  ∧ Storage.getProject id (Storage.updateProject now id updates d).2
    = Some (<["updatedAt" := JDate now]> updates ∪ r).
Proof.
  intros Hget Hnoid. unfold Storage.getProject, Storage.updateProject in *. simpl.
  unfold updated. destruct (selectWhere "id" id (projects d)) as [|r0 rest] eqn:Hsel; [done|].
  injection Hget as ->. split; [done|].
  rewrite (selectWhere_updateWhere "id" id id).
  - rewrite Hsel. simpl.
    assert (Hin : r ∈ selectWhere "id" id (projects d)) by (rewrite Hsel; apply list_elem_of_here).
    apply elem_of_selectWhere in Hin as [_ Hin]. apply colEq_spec in Hin. by rewrite Hin.
  - intros r1 _. by rewrite stamped_lookup, Hnoid.
Qed.

(** X16.  What the owner writes with PUT is what GET shows next: when the
    accepted updates name neither [id] nor [userId], PUT answers 200 with the
    updated project, stamped with the time of the call, and GET
    /api/projects/:id then answers 200 with the same project. *)
Theorem put_then_get (sch : Schemas) (req : Request) (env : ServerEnv) (s : ServerState)
    (project updates : Row) :
  dbUp env →
  Storage.getProject (param req) (db s) = Some project →
  project !! "userId" = Some (JString (sub req)) →
  parse (partial (insertProjectSchema sch)) (body req) = inr updates →
  updates !! "id" = None →
  updates !! "userId" = None →
  ∃ (row : Row) (s1 s2 : ServerState),
    Routes.putProject sch req env s
    = (Return {| status := 200; payload := Json (Some row) |}, s1)
    ∧ row !! "updatedAt" = Some (JDate (now env))
    ∧ (∀ (k : string) (v : JsValue),
         k ≠ "updatedAt" → updates !! k = Some v → row !! k = Some v)
    ∧ Routes.readProject req env s1
      = (Return {| status := 200; payload := Json (Some row) |}, s2)
    ∧ db s2 = db s1.
Proof.
  intros Hup Hget Hown Hparse Hnoid Hnouser.
  destruct (getProject_after_update (now env) (param req) updates project (db s) Hget Hnoid)
    as [Hres Hafter].
  exists (<["updatedAt" := JDate (now env)]> updates ∪ project).
  eexists. eexists. split.
  { rewrite (putProject_run _ _ _ _ project) by done. rewrite Hparse. simpl.
    rewrite Hup. simpl in Hres. unfold updated in Hres.
    unfold updated. rewrite Hres. reflexivity. }
  split; [by rewrite lookup_union, lookup_insert_eq; destruct (project !! "updatedAt")|].
  split; [intros k v Hk Hu; by rewrite stamped_lookup, Hu|].
  unfold Routes.readProject, tryCatch. simpl in Hafter.
  erewrite withOwnedProject_owned; [split; reflexivity| apply Hup | exact Hafter |].
  by rewrite stamped_lookup, Hnouser.
Qed.

Lemma put_then_get_witness :
  parse (partial (insertProjectSchema Sample.schemas))
    (JObject {[ "title" := JString "Store" ]})
  = inr {[ "title" := JString "Store" ]}
  ∧ ∃ (row : Row) (s1 s2 : ServerState),
      Routes.putProject Sample.schemas
        (Sample.request "p1" (JObject {[ "title" := JString "Store" ]}))
        Sample.env Sample.start
      = (Return {| status := 200; payload := Json (Some row) |}, s1)
      ∧ row !! "updatedAt" = Some (JDate (now Sample.env))
      ∧ (∀ (k : string) (v : JsValue),
           k ≠ "updatedAt" →
           ({[ "title" := JString "Store" ]} : Row) !! k = Some v → row !! k = Some v)
      ∧ Routes.readProject (Sample.request "p1" (JObject {[ "title" := JString "Store" ]}))
          Sample.env s1
        = (Return {| status := 200; payload := Json (Some row) |}, s2)
      ∧ db s2 = db s1.
Proof.
  split; [reflexivity|].
  exact (put_then_get Sample.schemas
           (Sample.request "p1" (JObject {[ "title" := JString "Store" ]}))
           Sample.env Sample.start Sample.aliceProject {[ "title" := JString "Store" ]}
           dbUp_sample eq_refl eq_refl eq_refl eq_refl eq_refl).
Defined.

(** X17.  A project created with POST /api/projects is in the creator's
    list afterwards: when the database runs every statement and the input is
    accepted by an insert schema that declares [userId], POST answers 201
    with the new project, and GET /api/projects then lists it next to the
    projects listed before. *)
Theorem post_then_list (sch : Schemas) (req : Request) (env : ServerEnv) (s : ServerState)
    (projectData : Row) :
  dbUp env →
  "userId" ∈ (insertProjectSchema sch).*1 →
  parse (insertProjectSchema sch) (JObject (projectInput req)) = inr projectData →
  ∃ (row : Row) (l : list Row) (s1 s2 : ServerState),
    Routes.postProject sch req env s
    = (Return {| status := 201; payload := Json (Some row) |}, s1)
    ∧ Routes.listProjects req env s1
      = (Return {| status := 200; payload := JsonList l |}, s2)
    ∧ row ∈ l
    ∧ l ≡ₚ row :: Storage.getUserProjects (sub req) (db s).
Proof.
  intros Hup Hdeclared Hparse.
  assert (Huser : projectData !! "userId" = Some (JString (sub req))).
  { rewrite (parse_keeps _ _ _ _ Hdeclared Hparse). apply lookup_insert_eq. }
  assert (Hrow : colEq "userId" (sub req) (inserted (generated env) projectData) = true).
  { apply colEq_spec. by apply lookup_union_Some_l. }
  assert (Hlist : Storage.getUserProjects (sub req)
                    (setTable Projects
                       (projects (db s) ++ [inserted (generated env) projectData]) (db s))
                  ≡ₚ inserted (generated env) projectData
                     :: Storage.getUserProjects (sub req) (db s)).
  { unfold Storage.getUserProjects. simpl.
    rewrite !merge_sort_Permutation, selectWhere_app.
    unfold selectWhere at 2. rewrite filter_cons, decide_True, filter_nil by done.
    by rewrite <- Permutation_cons_append. }
  eexists. eexists. eexists. eexists.
  split; [rewrite postProject_run, Hparse; simpl; by rewrite Hup|].
  split; [unfold_handlers; simpl; by rewrite Hup|].
  split; [|exact Hlist].
  rewrite Hlist. apply list_elem_of_here.
Qed.

Lemma post_then_list_witness :
  "userId" ∈ (insertProjectSchema Sample.schemas).*1
  ∧ parse (insertProjectSchema Sample.schemas)
      (JObject (projectInput (Sample.request "" Sample.goodBody)))
    = inr {[ "title" := JString "Store"; "userId" := JString "alice" ]}
  ∧ ∃ (row : Row) (l : list Row) (s1 s2 : ServerState),
      Routes.postProject Sample.schemas (Sample.request "" Sample.goodBody)
        Sample.env Sample.start
      = (Return {| status := 201; payload := Json (Some row) |}, s1)
      ∧ Routes.listProjects (Sample.request "" Sample.goodBody) Sample.env s1
        = (Return {| status := 200; payload := JsonList l |}, s2)
      ∧ row ∈ l
      ∧ l ≡ₚ row :: Storage.getUserProjects "alice" Sample.store.
Proof.
  assert (Hdeclared : "userId" ∈ (insertProjectSchema Sample.schemas).*1)
    by (vm_compute; repeat constructor).
  split; [exact Hdeclared|]. split; [reflexivity|].
  exact (post_then_list Sample.schemas (Sample.request "" Sample.goodBody)
           Sample.env Sample.start {[ "title" := JString "Store"; "userId" := JString "alice" ]}
           dbUp_sample Hdeclared eq_refl).
Defined.

(** X18.  An endpoint is created for the project of the path, whatever the
    body says: for the owner, with an accepted input and an insert schema
    that declares [projectId], POST /api/projects/:projectId/endpoints
    answers 201 with an endpoint whose [projectId] is the path's, the
    projects and users are untouched, and GET on the same path then lists the
    endpoint. *)
Theorem endpoint_created_for_path_project (sch : Schemas) (req : Request) (env : ServerEnv)
    (s : ServerState) (project endpointData : Row) :
  dbUp env →
  "projectId" ∈ (insertApiEndpointSchema sch).*1 →
  Storage.getProject (param req) (db s) = Some project →
  project !! "userId" = Some (JString (sub req)) →
  parse (insertApiEndpointSchema sch)
    (JObject (<["projectId" := JString (param req)]> (spread (body req)))) = inr endpointData →
  ∃ (row : Row) (l : list Row) (s1 s2 : ServerState),
    Routes.postEndpoint sch req env s
    = (Return {| status := 201; payload := Json (Some row) |}, s1)
    ∧ row !! "projectId" = Some (JString (param req))
    ∧ projects (db s1) = projects (db s)
    ∧ users (db s1) = users (db s)
    ∧ Routes.listEndpoints req env s1
      = (Return {| status := 200; payload := JsonList l |}, s2)
    ∧ row ∈ l.
Proof.
  intros Hup Hdeclared Hget Hown Hparse.
  assert (Hpid : endpointData !! "projectId" = Some (JString (param req))).
  { rewrite (parse_keeps _ _ _ _ Hdeclared Hparse). apply lookup_insert_eq. }
  assert (Hrow : inserted (generated env) endpointData !! "projectId"
                 = Some (JString (param req))) by by apply lookup_union_Some_l.
  exists (inserted (generated env) endpointData). eexists. eexists. eexists.
  split; [rewrite (postEndpoint_run _ _ _ _ project), Hparse by done; simpl; by rewrite Hup|].
  split; [done|]. split; [done|]. split; [done|]. split.
  - unfold Routes.listEndpoints, tryCatch.
    erewrite withOwnedProject_owned; [|apply Hup|exact Hget|exact Hown].
    unfold getProjectEndpoints, bind, storage, respond, ret. simpl. by rewrite Hup.
  - unfold Storage.getProjectEndpoints. simpl. rewrite merge_sort_Permutation.
    apply elem_of_selectWhere. split; [|done].
    apply elem_of_app. right. apply list_elem_of_here.
Qed.

Lemma endpoint_created_for_path_project_witness :
  "projectId" ∈ (insertApiEndpointSchema Sample.schemas).*1
  ∧ ∃ (row : Row) (l : list Row) (s1 s2 : ServerState),
      Routes.postEndpoint Sample.schemas
        (Sample.request "p1"
           (JObject {[ "projectId" := JString "p2"; "path" := JString "/cart";
                       "method" := JString "POST" ]}))
        Sample.env Sample.start
      = (Return {| status := 201; payload := Json (Some row) |}, s1)
      ∧ row !! "projectId" = Some (JString "p1")
      ∧ projects (db s1) = projects Sample.store
      ∧ users (db s1) = users Sample.store
      ∧ Routes.listEndpoints
          (Sample.request "p1"
             (JObject {[ "projectId" := JString "p2"; "path" := JString "/cart";
                         "method" := JString "POST" ]}))
          Sample.env s1
        = (Return {| status := 200; payload := JsonList l |}, s2)
      ∧ row ∈ l.
Proof.
  assert (Hdeclared : "projectId" ∈ (insertApiEndpointSchema Sample.schemas).*1)
    by (vm_compute; repeat constructor).
  split; [exact Hdeclared|].
  exact (endpoint_created_for_path_project Sample.schemas
           (Sample.request "p1"
              (JObject {[ "projectId" := JString "p2"; "path" := JString "/cart";
                          "method" := JString "POST" ]}))
           Sample.env Sample.start Sample.aliceProject
           {[ "projectId" := JString "p1"; "path" := JString "/cart";
              "method" := JString "POST" ]}
           dbUp_sample Hdeclared eq_refl eq_refl eq_refl).
Defined.

(** X19.  A handler answers 500 only when the database failed: with every
    statement running, no request is answered 500. *)
Theorem no_500_when_db_up (sch : Schemas) (m : Method) (p : string)
    (h : Request → ServerM Response) (req : Request) (env : ServerEnv)
    (s : ServerState) (response : Response) :
  dbUp env →
  handlerOf sch m p = Some h →
  (h req env s).1 = Return response →
  status response ≠ 500%nat.
Proof.
  intros Hup Hh. pick_handler Hh; unfold_handlers; simpl; rewrite ?Hup;
    repeat (simpl; rewrite ?Hup;
      match goal with
      | |- context [Storage.getProject ?i ?d] => destruct (Storage.getProject i d) eqn:?
      | |- context [strictNeString ?a ?b] => destruct (strictNeString a b) eqn:?
      | |- context [parse ?a ?b] => destruct (parse a b) eqn:?
      | |- context [parseShape ?a ?b] => destruct (parseShape a b) as [[|? ?] ?] eqn:?
      end);
    simpl; rewrite ?Hup; simpl; intros [= <-]; simpl; discriminate.
Qed.

Lemma no_500_when_db_up_witness :
  dbUp Sample.env
  ∧ (Routes.authUser (Sample.request "" JNull) Sample.env Sample.start).1
    = Return {| status := 200; payload := Json (Some {[ "id" := JString "alice" ]}) |}
  ∧ status {| status := 200; payload := Json (Some {[ "id" := JString "alice" ]}) |} ≠ 500%nat.
Proof.
  split; [exact dbUp_sample|]. split; [reflexivity|].
  exact (no_500_when_db_up Sample.schemas GET "/api/auth/user" Routes.authUser
           (Sample.request "" JNull) Sample.env Sample.start
           {| status := 200; payload := Json (Some {[ "id" := JString "alice" ]}) |}
           dbUp_sample eq_refl eq_refl).
Defined.

(* ===================================================================== *)
(** * Further properties of the AI facade *)
(* ===================================================================== *)

Lemma textOr_nonempty (text : option string) (d : string) : d ≠ "" → textOr text d ≠ "".
Proof.
  intros Hd. unfold textOr. destruct text as [t|]; [|done].
  destruct (String.eqb_spec t ""); done.
Qed.

(** X20.  [generateReactComponent] throws "Failed to generate component
    with AI" when the request is rejected, returns the placeholder comment
    when the response has no text or an empty one, and the text of the
    response otherwise; what it returns is never the empty string. *)
Theorem generateReactComponent_outcome (componentType framework stylePreferences : string)
    (ai : nat → GenRequest → Settled) (issued : list GenRequest) :
  let request := flash (componentPrompt componentType framework stylePreferences) in
  let outcome := (generateReactComponent componentType framework stylePreferences ai issued).1 in
  match ai (length issued) request with
  | Rejected => outcome = Throw (Error "Failed to generate component with AI")
  | Fulfilled None | Fulfilled (Some EmptyString) =>
      outcome = Return "// Error generating component"
  | Fulfilled (Some text) => outcome = Return text
  end
  ∧ ∀ code : string, outcome = Return code → code ≠ "".
Proof.
  intros request outcome. subst request outcome.
  unfold generateReactComponent, tryCatch, bind, generateContent, flash. simpl.
  destruct (ai _ _) as [|[[|c text]|]]; simpl; split; try done;
    intros code [= <-]; done.
Qed.

(** X21.  [generateBackendCode] is all or nothing: when one of its three
    requests is rejected it throws "Failed to generate backend code with AI",
    whatever the other two gave; when all three are answered, each file is
    the text of its response, or its placeholder comment when there is no
    text or an empty one, so no file is ever the empty string. *)
Theorem generateBackendCode_all_or_nothing (database framework : string)
    (features : list (string * bool)) (ai : nat → GenRequest → Settled)
    (issued : list GenRequest) :
  let first := ai (length issued) (flash (routesPrompt database framework features)) in
  let second := ai (S (length issued)) (flash (modelsPrompt database features)) in
  let third := ai (S (S (length issued))) (flash (middlewarePrompt framework features)) in
  let outcome := (generateBackendCode database framework features ai issued).1 in
  (first = Rejected ∨ second = Rejected ∨ third = Rejected →
     outcome = Throw (Error "Failed to generate backend code with AI"))
  ∧ (∀ text1 text2 text3 : option string,
       first = Fulfilled text1 → second = Fulfilled text2 → third = Fulfilled text3 →
       outcome = Return {| routes := textOr text1 "// Error generating routes";
                           models := textOr text2 "// Error generating models";
                           middleware := textOr text3 "// Error generating middleware" |})
  ∧ (∀ code : BackendCode,
       outcome = Return code →
       routes code ≠ "" ∧ models code ≠ "" ∧ middleware code ≠ "").
Proof.
  intros first second third outcome. subst first second third outcome.
  unfold generateBackendCode, tryCatch, bind, generateContent. simpl.
  rewrite !length_app. simpl. rewrite !Nat.add_1_r.
  destruct (ai (length issued) _) as [|text1];
    destruct (ai (S (length issued)) _) as [|text2];
    destruct (ai (S (S (length issued))) _) as [|text3]; simpl;
    (split; [|split]);
    try (intros [H|[H|H]]; done); try done;
    try (intros ? ? ? [= <-] [= <-] [= <-]; done).
  intros code [= <-]. simpl. repeat split; by apply textOr_nonempty.
Qed.

Example generateBackendCode_sample :
  (generateBackendCode "PostgreSQL" "Express" [("userAuth", true)]
     (λ n _, match n with 1%nat => Rejected | _ => Fulfilled (Some "ok") end) []).1
  = Throw (Error "Failed to generate backend code with AI")
  ∧ (generateBackendCode "PostgreSQL" "Express" [("userAuth", true)]
       (λ n _, match n with 1%nat => Fulfilled None | _ => Fulfilled (Some "ok") end) []).1
    = Return {| routes := "ok"; models := "// Error generating models"; middleware := "ok" |}.
Proof. vm_compute. repeat split. Qed.

Section BuildFromPromptEdges.

Variable JSON_parse : string → option JsValue.

(** X22.  [buildFromPrompt] sends one request and, besides a text that is
    not JSON, fails on a rejected request and on the JSON text [null]; a JSON
    text that is neither an object nor [null] gives the six defaults, and in
    an object a field that is there but falsy (null, false, zero, the empty
    string) is replaced by its default like a missing one. *)
Theorem buildFromPrompt_edges (userPrompt : string) (ai : nat → GenRequest → Settled)
    (issued : list GenRequest) :
  let answer := ai (length issued) (siteRequest userPrompt) in
  let outcome := (buildFromPrompt JSON_parse userPrompt ai issued).1 in
  (buildFromPrompt JSON_parse userPrompt ai issued).2 = issued ++ [siteRequest userPrompt]
  ∧ (answer = Rejected → outcome = Throw siteFailure)
  ∧ (∀ text : option string,
       answer = Fulfilled text →
       (JSON_parse (textOr text "{}") = Some JNull → outcome = Throw siteFailure)
       ∧ (∀ v : JsValue,
            JSON_parse (textOr text "{}") = Some v →
            match v with JNull | JObject _ => False | _ => True end →
            outcome = Return defaultSite)
       ∧ (∀ o : JsObject,
            JSON_parse (textOr text "{}") = Some (JObject o) →
            ∃ site : Site,
              outcome = Return site
              ∧ ∀ (name : string) (get : Site → JsValue) (default v : JsValue),
                  (name, get, default) ∈ siteFields →
                  o !! name = Some v → truthy v = false → get site = default)).
Proof.
  intros answer outcome. subst answer outcome. rewrite buildFromPrompt_run. simpl.
  split; [done|]. split; [by intros ->|].
  intros text ->. split; [by intros ->|]. split.
  - intros v -> Hv. by destruct v.
  - intros o ->. eexists. split; [done|].
    intros name get default v Hfield Hv Hfalsy. unfold siteFields in Hfield.
    rewrite !elem_of_cons, elem_of_nil in Hfield.
    destruct Hfield as [H|[H|[H|[H|[H|[H|[]]]]]]]; injection H as -> -> ->; simpl;
      by rewrite Hv; simpl; rewrite Hfalsy.
Qed.

End BuildFromPromptEdges.

Example buildFromPrompt_edges_sample :
  (buildFromPrompt PlainJson.JSON_parse "a shop" (Sample.answering (Some "[1, 2]")) []).1
  = Return defaultSite
  ∧ (buildFromPrompt PlainJson.JSON_parse "a shop" (Sample.answering (Some "7")) []).1
    = Return defaultSite
  ∧ (buildFromPrompt PlainJson.JSON_parse "a shop"
       (Sample.answering (Some ("{" +:+ dq +:+ "title" +:+ dq +:+ ": 0, "
                                    +:+ dq +:+ "jsCode" +:+ dq +:+ ": false}"))) []).1
    = Return defaultSite.
Proof. vm_compute. repeat split. Qed.

(* ===================================================================== *)
(** * Properties of the AI routes *)
(* ===================================================================== *)

Section AiRouteFacts.

Variable scalarText : JsValue → string.
Variable keyOrder : list string.
Variable apiKey : bool.

Lemma field_bodyField (body : JsValue) (name : string) (issued : list GenRequest)
    (ai : nat → GenRequest → Settled) :
  body ≠ JNull →
  field body name ai issued = (Return (bodyField body name), issued).
Proof. intros Hbody. by destruct body. Qed.

(** X23.  Both AI routes ask for their three fields before anything else:
    when one is missing or falsy the answer is 400 with the list of required
    fields and no request goes to the model; a body that is [null] is
    answered 500, also without a request. *)
Theorem ai_routes_require_fields (body : JsValue) (ai : nat → GenRequest → Settled)
    (issued : list GenRequest) :
  (body ≠ JNull →
   present (bodyField body "componentType") && present (bodyField body "framework")
     && present (bodyField body "stylePreferences") = false →
   generateComponentRoute scalarText apiKey body ai issued
   = (Return {| aiStatus := 400;
                aiPayload := AiMessage "Missing required fields: componentType, framework, stylePreferences" |},
      issued))
  ∧ (body ≠ JNull →
     present (bodyField body "database") && present (bodyField body "framework")
       && present (bodyField body "features") = false →
     generateBackendRoute scalarText keyOrder apiKey body ai issued
     = (Return {| aiStatus := 400;
                  aiPayload := AiMessage "Missing required fields: database, framework, features" |},
        issued))
  ∧ generateComponentRoute scalarText apiKey JNull ai issued
    = (Return {| aiStatus := 500;
                 aiPayload := AiMessage "Failed to generate component. Please check your API key and try again." |},
       issued)
  ∧ generateBackendRoute scalarText keyOrder apiKey JNull ai issued
    = (Return {| aiStatus := 500;
                 aiPayload := AiMessage "Failed to generate backend code. Please check your API key and try again." |},
       issued).
Proof.
  split; [|split; [|split; reflexivity]].
  - intros Hbody Hmissing.
    unfold generateComponentRoute, tryCatch, bind. rewrite !field_bodyField by done.
    destruct (present (bodyField body "componentType")),
      (present (bodyField body "framework")),
      (present (bodyField body "stylePreferences")); done.
  - intros Hbody Hmissing.
    unfold generateBackendRoute, tryCatch, bind. rewrite !field_bodyField by done.
    destruct (present (bodyField body "database")),
      (present (bodyField body "framework")),
      (present (bodyField body "features")); done.
Qed.

(** X24.  With its three fields there, POST /api/ai/generate-component
    answers 500 and sends nothing when there is no API key or when one of the
    three values cannot be put into the prompt (the template literal throws);
    otherwise it sends exactly one request, built from the texts of the three
    values, and answers 200 with the generated code and the component type and
    framework it was given, or 500 when the request is rejected. *)
Theorem generateComponentRoute_outcome (body : JsValue) (ai : nat → GenRequest → Settled)
    (issued : list GenRequest) (componentType framework stylePreferences : JsValue) :
  bodyField body "componentType" = Some componentType →
  bodyField body "framework" = Some framework →
  bodyField body "stylePreferences" = Some stylePreferences →
  truthy componentType && truthy framework && truthy stylePreferences = true →
  let failure := {| aiStatus := 500;
                    aiPayload := AiMessage "Failed to generate component. Please check your API key and try again." |} in
  let run := generateComponentRoute scalarText apiKey body ai issued in
  match apiKey, toText scalarText componentType, toText scalarText framework,
        toText scalarText stylePreferences with
  | true, Some text1, Some text2, Some text3 =>
      let request := flash (componentPrompt text1 text2 text3) in
      run = (match ai (length issued) request with
             | Rejected => Return failure
             | Fulfilled text =>
                 Return {| aiStatus := 200;
                           aiPayload := ComponentCode (textOr text "// Error generating component")
                                          (Some componentType) (Some framework) |}
             end,
             issued ++ [request])
  | _, _, _, _ => run = (Return failure, issued)
  end.
Proof.
  intros Hct Hfw Hsp Htruthy failure run. subst failure run.
  assert (Hbody : body ≠ JNull) by (by destruct body).
  apply andb_true_iff in Htruthy as [Htruthy Hsp']. apply andb_true_iff in Htruthy as [Hct' Hfw'].
  unfold generateComponentRoute, tryCatch, bind. rewrite !field_bodyField by done.
  rewrite Hct, Hfw, Hsp. simpl. rewrite Hct', Hfw', Hsp'. simpl.
  destruct apiKey; simpl; [|done].
  destruct (toText scalarText componentType) as [text1|]; simpl; [|done].
  destruct (toText scalarText framework) as [text2|]; simpl; [|done].
  destruct (toText scalarText stylePreferences) as [text3|]; simpl; [|done].
  unfold generateReactComponent, tryCatch, bind, generateContent, flash. simpl.
  by destruct (ai _ _).
Qed.


End AiRouteFacts.

Example toText_sample :
  toText Sample.scalarText (JString "navbar") = Some "navbar"
  ∧ toText Sample.scalarText (JBool true) = Some "true"
  ∧ toText Sample.scalarText (JArray [JString "a"; JNull; JArray [JString "b"; JString "c"]])
    = Some "a,,b,c"
  ∧ toText Sample.scalarText (JArray []) = Some ""
  ∧ toText Sample.scalarText (JObject {[ "name" := JString "x" ]}) = Some "[object Object]"
  ∧ toText Sample.scalarText (JObject {[ "toString" := JString "x" ]}) = None
  ∧ toText Sample.scalarText (JArray [JObject {[ "toString" := JNull ]}]) = None.
Proof. vm_compute. repeat split. Qed.

Example ai_routes_require_fields_sample :
  generateComponentRoute Sample.scalarText true
    (JObject {[ "componentType" := JString "navbar"; "framework" := JString "" ]})
    Sample.failing []
  = (Return {| aiStatus := 400;
               aiPayload := AiMessage "Missing required fields: componentType, framework, stylePreferences" |},
     [])
  ∧ generateBackendRoute Sample.scalarText [] true (JArray []) Sample.failing []
    = (Return {| aiStatus := 400;
                 aiPayload := AiMessage "Missing required fields: database, framework, features" |},
       []).
Proof. vm_compute. repeat split. Qed.

(** A component type that is an object with a [toString] property of its
    own: the prompt cannot be built, nothing is sent and the answer is 500. *)
Example unconvertible_value_sample :
  generateComponentRoute Sample.scalarText true
    (JObject {[ "componentType" := JObject {[ "toString" := JBool true ]};
                "framework" := JString "React"; "stylePreferences" := JString "dark" ]})
    (Sample.answering (Some "code")) []
  = (Return {| aiStatus := 500;
               aiPayload := AiMessage "Failed to generate component. Please check your API key and try again." |},
     [])
  ∧ generateBackendRoute Sample.scalarText ["userAuth"] true
      (JObject {[ "database" := JObject {[ "toString" := JBool true ]};
                  "framework" := JString "Express";
                  "features" := JObject {[ "userAuth" := JBool true ]} ]})
      (Sample.answering (Some "code")) []
    = (Return {| aiStatus := 500;
                 aiPayload := AiMessage "Failed to generate backend code. Please check your API key and try again." |},
       []).
Proof. vm_compute. repeat split. Qed.

(** The features are named in the prompts in the order of the keys of the
    object. *)
Example key_order_sample :
  featuresText
    (map (λ entry, (entry.1, truthy entry.2))
       (entriesOf ["fileUpload"; "crudOps"; "userAuth"]
          (JObject {[ "userAuth" := JBool true; "crudOps" := JBool false;
                      "fileUpload" := JString "yes" ]})))
  = "fileUpload, userAuth"
  ∧ featuresText
      (map (λ entry, (entry.1, truthy entry.2))
         (entriesOf ["userAuth"; "crudOps"; "fileUpload"]
            (JObject {[ "userAuth" := JBool true; "crudOps" := JBool false;
                        "fileUpload" := JString "yes" ]})))
    = "userAuth, fileUpload".
Proof. vm_compute. repeat split. Qed.

Lemma generateComponentRoute_outcome_witness :
  generateComponentRoute Sample.scalarText true
    (JObject {[ "componentType" := JString "navbar"; "framework" := JString "React";
                "stylePreferences" := JString "dark" ]})
    (Sample.answering (Some "export const Navbar = () => null")) []
  = (Return {| aiStatus := 200;
               aiPayload := ComponentCode "export const Navbar = () => null"
                              (Some (JString "navbar")) (Some (JString "React")) |},
     [flash (componentPrompt "navbar" "React" "dark")]).
Proof.
  exact (generateComponentRoute_outcome Sample.scalarText true
           (JObject {[ "componentType" := JString "navbar"; "framework" := JString "React";
                       "stylePreferences" := JString "dark" ]})
           (Sample.answering (Some "export const Navbar = () => null")) []
           (JString "navbar") (JString "React") (JString "dark")
           eq_refl eq_refl eq_refl eq_refl).
Defined.


Example generateBackendRoute_sample :
  generateBackendRoute Sample.scalarText ["userAuth"; "crudOps"] true
    (JObject {[ "database" := JString "PostgreSQL"; "framework" := JString "Express";
                "features" := JObject {[ "userAuth" := JBool true;
                                         "crudOps" := JBool false ]} ]})
    (Sample.answering (Some "ok")) []
  = (Return {| aiStatus := 200;
               aiPayload := BackendFiles {| routes := "ok"; models := "ok"; middleware := "ok" |}
                              (Some (JString "PostgreSQL")) (Some (JString "Express")) |},
     [flash (routesPrompt "PostgreSQL" "Express" [("userAuth", true); ("crudOps", false)]);
      flash (modelsPrompt "PostgreSQL" [("userAuth", true); ("crudOps", false)]);
      flash (middlewarePrompt "Express" [("userAuth", true); ("crudOps", false)])]).
Proof. vm_compute. reflexivity. Qed.
